(** * DS2438New: an emulated DS2438 battery monitor on a 1-Wire bus

    Shallow embedding of the [DS2438New] class (DS2438New.h and its
    implementation file).  C integers are modelled as [Z] with every
    conversion to a fixed-width type written out; the fixed-size C arrays are
    lists whose accesses are bounds-checked: an access outside an array, which
    is undefined behaviour in C++, makes the operation return [None]. *)

From Stdlib Require Import ZArith Lia Floats.SpecFloat.
From stdpp Require Import base option list list_numbers.

Local Open Scope Z_scope.

(** ** Fixed-width integer conversions *)

Definition to_uint8 (z : Z) : Z := z mod 256.
Definition to_uint16 (z : Z) : Z := z mod 65536.
Definition to_int8 (z : Z) : Z := (z + 128) mod 256 - 128.
Definition to_int16 (z : Z) : Z := (z + 32768) mod 65536 - 32768.

Definition is_uint8 (z : Z) : Prop := 0 <= z < 256.
Definition is_uint16 (z : Z) : Prop := 0 <= z < 65536.
Definition is_int8 (z : Z) : Prop := -128 <= z < 128.
Definition is_int16 (z : Z) : Prop := -32768 <= z < 32768.

(** ** C arrays with checked accesses *)

Definition load (a : list Z) (i : Z) : option Z :=
  if 0 <=? i then a !! Z.to_nat i else None.

Definition store (a : list Z) (i v : Z) : option (list Z) :=
  if (0 <=? i) && (i <? Z.of_nat (length a))
  then Some (<[Z.to_nat i := v]> a) else None.

(** The [n] bytes at [&a[off]], as a function reading them (crc8, send) sees
    them. *)
Definition slice (a : list Z) (off n : Z) : option (list Z) :=
  if (0 <=? off) && (0 <=? n) && (off + n <=? Z.of_nat (length a))
  then Some (take (Z.to_nat n) (drop (Z.to_nat off) a)) else None.

(** [memcpy(&dst[doff], &src[soff], n)]. *)
Definition memcpy (dst : list Z) (doff : Z) (src : list Z) (soff n : Z)
  : option (list Z) :=
  bytes ← slice src soff n;
  if (0 <=? doff) && (doff + n <=? Z.of_nat (length dst))
  then Some (list_inserts (Z.to_nat doff) bytes dst) else None.

(** ** The transport collaborator

    The bus transport engine (class OneWireHub of the OneWireHub library) is
    not part of the repository; section 6 of the spec gives its interface. *)

(** Modelled from the spec: the state of the transport engine, which the
    repository only calls.  [rx] holds the bytes the master still transmits
    in this transaction, [tx_room] the number of bytes it still reads back
    before a send fails, [tx] the bytes sent so far and [errors] the codes
    passed to [raiseSlaveError]. *)
Record OneWireHub := mkHub {
  rx : list Z;
  tx_room : nat;
  tx : list Z;
  errors : list Z
}.

(** Modelled from the spec: [receiveByte() -> (byte, ok)] of the transport
    engine; [None] stands for the failure return ([true] in the library) of
    [hub->recv], when no byte is available. *)
Definition recv (h : OneWireHub) : option Z * OneWireHub :=
  match rx h with
  | [] => (None, h)
  | b :: rest => (Some b, mkHub rest (tx_room h) (tx h) (errors h))
  end.

(** Modelled from the spec: [sendBytes(bytes) -> ok] of the transport
    engine; the boolean is the return value of [hub->send], [true] when the
    master stopped reading before all bytes were out. *)
Definition send (bytes : list Z) (h : OneWireHub) : bool * OneWireHub :=
  (Nat.ltb (tx_room h) (length bytes),
   mkHub (rx h) (tx_room h - length bytes)%nat
         (tx h ++ take (tx_room h) bytes) (errors h)).

(** Modelled from the spec: [signalProtocolError(code)] of the transport
    engine, [hub->raiseSlaveError] in the code. *)
Definition raiseSlaveError (cmd : Z) (h : OneWireHub) : OneWireHub :=
  mkHub (rx h) (tx_room h) (tx h) (errors h ++ [cmd]).

(** ** CRC of the device family

    [crc8] is a helper of the transport library (OneWireItem) and absent
    from the repository.  The device model below is parametric in the
    checksum function; the function here instantiates it on concrete
    inputs. *)

(** Modelled from the spec: one byte of the 8-bit CRC of the reference
    device family, the Dallas/Maxim CRC with the reflected polynomial 0x8C,
    bit by bit. *)
Fixpoint crc8_bits (n : nat) (c inByte : Z) : Z :=
  match n with
  | O => c
  | S n' =>
      let mix := Z.land (Z.lxor c inByte) 1 in
      let c1 := Z.shiftr c 1 in
      let c2 := if mix =? 0 then c1 else Z.lxor c1 0x8C in
      crc8_bits n' c2 (Z.shiftr inByte 1)
  end.

(** Modelled from the spec: the CRC of a byte sequence, initial value 0. *)
Definition crc8_dallas (data : list Z) : Z :=
  fold_left (fun c b => crc8_bits 8 c b) data 0.

(** ** Constants of DS2438New.h *)

(** The 64 bytes of the table [MemDS2438]: three rows of its own bytes, and
    five rows (40 bytes) of 0x00. *)
Definition MemDS2438 : list Z :=
  [ 0x09; 0x20; 0x14; 0xAC; 0x00; 0x40; 0x01; 0x00;
    0xEC; 0xAB; 0x23; 0x58; 0xFF; 0x08; 0x00; 0xFC;
    0x00; 0x00; 0x00; 0x00; 0x6D; 0x83; 0x03; 0x02 ]
  ++ replicate 40 0x00.

Definition PAGE_COUNT : Z := 8.
Definition PAGE_SIZE : Z := 8.
Definition MEM_SIZE : Z := PAGE_COUNT * PAGE_SIZE.

Definition REG0_MASK_IAD : Z := 0x01.
Definition REG0_MASK_CA : Z := 0x02.
Definition REG0_MASK_EE : Z := 0x04.
Definition REG0_MASK_AD : Z := 0x08.
Definition REG0_MASK_TB : Z := 0x10.
Definition REG0_MASK_NVB : Z := 0x20.
Definition REG0_MASK_ADB : Z := 0x40.

(** ** The device state: the data members of the class *)

Record DS2438New := mkDS2438New {
  memory : list Z;      (* uint8_t memory[MEM_SIZE] *)
  crc : list Z;         (* uint8_t crc[PAGE_COUNT+1] *)
  vadVoltage : list Z;  (* uint8_t vadVoltage[2] *)
  vddVoltage : list Z   (* uint8_t vddVoltage[2] *)
}.

Definition set_memory (m : list Z) (d : DS2438New) : DS2438New :=
  mkDS2438New m (crc d) (vadVoltage d) (vddVoltage d).
Definition set_crc (c : list Z) (d : DS2438New) : DS2438New :=
  mkDS2438New (memory d) c (vadVoltage d) (vddVoltage d).
Definition set_vadVoltage (v : list Z) (d : DS2438New) : DS2438New :=
  mkDS2438New (memory d) (crc d) v (vddVoltage d).
Definition set_vddVoltage (v : list Z) (d : DS2438New) : DS2438New :=
  mkDS2438New (memory d) (crc d) (vadVoltage d) v.

(** The arrays have the sizes the class declares. *)
Definition wf (d : DS2438New) : Prop :=
  length (memory d) = 64%nat ∧ length (crc d) = 9%nat ∧
  length (vadVoltage d) = 2%nat ∧ length (vddVoltage d) = 2%nat.

(** ** Float to integer conversion

    [static_cast<int16_t>(x)] truncates toward zero; the conversion is
    undefined when the truncated value is not representable (and for
    infinities and NaN). *)

Definition float_trunc (x : spec_float) : option Z :=
  match x with
  | S754_zero _ => Some 0
  | S754_finite s m e =>
      let mag := if 0 <=? e then Z.shiftl (Z.pos m) e
                 else Z.shiftr (Z.pos m) (- e) in
      Some (if s then - mag else mag)
  | _ => None
  end.

Definition float_to_int16 (x : spec_float) : option Z :=
  v ← float_trunc x;
  if (-32768 <=? v) && (v <=? 32767) then Some v else None.

(** The arithmetic of the target (AVR): [float] and [double] are both IEEE
    754 binary32. *)
Definition float_mul : spec_float → spec_float → spec_float := SFmul 24 128.
Definition float_256 : spec_float := S754_finite false 8388608 (-15).

(** The binary32 values 23.5 (12320768 * 2^-19) and 23.0. *)
Definition float_23_5 : spec_float := S754_finite false 12320768 (-19).
Definition float_23_0 : spec_float := S754_finite false 12058624 (-19).

(** ** Sample data

    Members as a constructor may find them (arbitrary bytes in arrays of the
    declared sizes), the device the constructor makes of them with the
    Dallas CRC, and a master that writes ten bytes to page 0. *)

Definition sample_raw : DS2438New :=
  mkDS2438New (replicate 64 0xAA) (replicate 9 0x55) [7; 7] [9; 9].

Definition sample_device : DS2438New :=
  mkDS2438New
    ([ 0x03; 0x20; 0x14; 0xAC; 0x00; 0x40; 0x01; 0x00;
       0xEC; 0xAB; 0x23; 0x58; 0xFF; 0x08; 0x00; 0xFC;
       0x00; 0x00; 0x00; 0x00; 0x6D; 0x83; 0x03; 0x02 ]
     ++ replicate 40 0x00)
    ([74; 223; 98] ++ replicate 5 0 ++ [0x55]) [7; 7] [9; 9].

Definition sample_write_page0 : OneWireHub :=
  mkHub [0x4E; 0; 1; 2; 3; 4; 5; 6; 7; 8; 9; 10] 0 [] [].

Definition sample_unknown_command : OneWireHub :=
  mkHub [0x77; 1] 9 [] [].

Definition sample_read_page0 : OneWireHub :=
  mkHub [0xBE; 0] 9 [] [].

Definition sample_read_page0_short : OneWireHub :=
  mkHub [0xBE; 0] 5 [] [].

Definition sample_convert_voltage : OneWireHub :=
  mkHub [0xB4] 0 [] [].

Definition sample_write_page1 : OneWireHub :=
  mkHub [0x4E; 1; 1; 2; 3; 4; 5; 6; 7; 8; 9; 10] 0 [] [].

Definition sample_read_page1 : OneWireHub :=
  mkHub [0xBE; 1] 9 [] [].

Definition sample_select_vdd : OneWireHub :=
  mkHub [0x4E; 0; 0x0B] 0 [] [].

(** The binary32 value -0.5. *)
Definition float_minus_half : spec_float := S754_finite true 8388608 (-24).

(** A generator and an EEPROM that was never written. *)
Definition sample_random (n : nat) : Z := 300 + Z.of_nat n.
Definition sample_eeprom : list Z := replicate 8 0xFF.

(** ** The operations of the class *)

Section Device.

(** [OneWireItem::crc8(data, size)] of the transport library, as a function
    of the bytes it reads. *)
Variable crc8 : list Z → Z.

Definition calcCRC (page : Z) (d : DS2438New) : option DS2438New :=
  if page <? PAGE_COUNT then
    bytes ← slice (memory d) (page * 8) 8;
    c ← store (crc d) page (crc8 bytes);
    Some (set_crc c d)
  else Some d.

Definition updateVoltage (page : Z) (d : DS2438New) : option DS2438New :=
  cfg ← load (memory d) (page * 8);
  let isVDD := to_uint8 (Z.land cfg REG0_MASK_AD) in
  let sel := if isVDD =? 0 then vadVoltage d else vddVoltage d in
  lo ← load sel 0;
  m1 ← store (memory d) (page * 8 + 3) lo;
  hi ← load sel 1;
  m2 ← store m1 (page * 8 + 4) hi;
  Some (set_memory m2 d).

(** [for (page = first; page <= last; ++page) calcCRC(page);] as a walk over
    the page numbers the loop visits, in order. *)
Fixpoint calcCRC_pages (pages : list Z) (d : DS2438New) : option DS2438New :=
  match pages with
  | [] => Some d
  | page :: rest => d' ← calcCRC page d; calcCRC_pages rest d'
  end.

(** [memory[0] |= mask] and [memory[0] &= ~mask]. *)
Definition or_reg0 (mask : Z) (m : list Z) : option (list Z) :=
  b ← load m 0; store m 0 (to_uint8 (Z.lor b mask)).
Definition clear_reg0 (mask : Z) (m : list Z) : option (list Z) :=
  b ← load m 0; store m 0 (to_uint8 (Z.land b (Z.lnot mask))).

Definition clearMemory (d : DS2438New) : option DS2438New :=
  m ← memcpy (memory d) 0 MemDS2438 0 (PAGE_COUNT * PAGE_SIZE);
  m ← or_reg0 REG0_MASK_IAD m;
  m ← or_reg0 REG0_MASK_CA m;
  m ← clear_reg0 REG0_MASK_AD m;
  m ← clear_reg0 REG0_MASK_TB m;
  m ← clear_reg0 REG0_MASK_NVB m;
  m ← clear_reg0 REG0_MASK_ADB m;
  calcCRC_pages (seqZ 0 PAGE_COUNT) (set_memory m d).

(** The constructor runs on uninitialised members: only the array sizes of
    [raw] are known. *)
Definition construct (raw : DS2438New) : option DS2438New := clearMemory raw.

(** [_length] of writeMemory and readMemory (a uint16_t). *)
Definition clip_length (length position : Z) : Z :=
  to_uint16 (if position + length >=? MEM_SIZE then MEM_SIZE - position
             else length).

Definition writeMemory (source : list Z) (length position : Z) (d : DS2438New)
  : option (bool * DS2438New) :=
  if position >=? MEM_SIZE then Some (false, d)
  else
    let _length := clip_length length position in
    m ← memcpy (memory d) position source 0 _length;
    let page_start := to_uint8 (Z.shiftr position 3) in
    let page_end := to_uint8 (Z.shiftr (position + length) 3) in
    d' ← calcCRC_pages (seqZ page_start (page_end - page_start + 1))
                       (set_memory m d);
    Some (true, d').

(** A const member function: the device is read, the caller's destination
    buffer is returned updated. *)
Definition readMemory (destination : list Z) (length position : Z)
    (d : DS2438New) : option (bool * list Z) :=
  if position >=? MEM_SIZE then Some (false, destination)
  else
    let _length := clip_length length position in
    dest ← memcpy destination 0 (memory d) position _length;
    Some (_length =? length, dest).

Definition setTemperature_float (temp_degC : spec_float) (d : DS2438New)
  : option DS2438New :=
  value ← float_to_int16 (float_mul temp_degC float_256);
  let value := if value >? 125 * 256 then 125 * 256 else value in
  let value := if value <? -55 * 256 then -55 * 256 else value in
  m ← store (memory d) 1 (to_uint8 (Z.land value 0xF8));
  m ← store m 2 (to_uint8 (Z.shiftr value 8));
  calcCRC 0 (set_memory m d).

Definition setTemperature_int8 (temp_degC : Z) (d : DS2438New)
  : option DS2438New :=
  let value := temp_degC in
  let value := if value >? 125 then 125 else value in
  let value := if value <? -55 then -55 else value in
  m ← store (memory d) 1 0;
  m ← store m 2 (to_uint8 value);
  calcCRC 0 (set_memory m d).

Definition getTemperature (d : DS2438New) : option Z :=
  b ← load (memory d) 2; Some (to_int8 b).

Definition set_voltage (voltage_10mV : Z) (v : list Z) : option (list Z) :=
  v ← store v 0 (to_uint8 (Z.land voltage_10mV 0xFF));
  store v 1 (to_uint8 (Z.land (Z.shiftr voltage_10mV 8) 0x03)).

Definition get_voltage (v : list Z) : option Z :=
  hi ← load v 1; lo ← load v 0;
  Some (to_uint16 (Z.lor (Z.shiftl hi 8) lo)).

Definition setVADVoltage (voltage_10mV : Z) (d : DS2438New)
  : option DS2438New :=
  v ← set_voltage voltage_10mV (vadVoltage d); Some (set_vadVoltage v d).

Definition getVADVoltage (d : DS2438New) : option Z :=
  get_voltage (vadVoltage d).

Definition setVDDVoltage (voltage_10mV : Z) (d : DS2438New)
  : option DS2438New :=
  v ← set_voltage voltage_10mV (vddVoltage d); Some (set_vddVoltage v d).

Definition getVDDVoltage (d : DS2438New) : option Z :=
  get_voltage (vddVoltage d).

Definition setCurrent (value : Z) (d : DS2438New) : option DS2438New :=
  m ← store (memory d) 5 (to_uint8 (Z.land value 0xFF));
  m ← store m 6 (to_uint8 (Z.land (Z.shiftr value 8) 0x03));
  m ← (if value <? 0
       then b ← load m 6; store m 6 (to_uint8 (Z.lor b 0xFC))
       else Some m);
  calcCRC 0 (set_memory m d).

Definition getCurrent (d : DS2438New) : option Z :=
  hi ← load (memory d) 6; lo ← load (memory d) 5;
  Some (to_int16 (Z.lor (Z.shiftl hi 8) lo)).

(** *** The command dispatcher *)

(** The receive loop of Write Scratchpad over the byte indices of the page:
    a failed receive leaves the loop, a protected index skips the store. *)
Fixpoint write_page_loop (indices : list Z) (h : OneWireHub) (m : list Z)
  : option (OneWireHub * list Z) :=
  match indices with
  | [] => Some (h, m)
  | nByte :: rest =>
      match recv h with
      | (None, h) => Some (h, m)
      | (Some data, h) =>
          if (nByte <? 7) && (nByte >? 0) then write_page_loop rest h m
          else m' ← store m nByte data; write_page_loop rest h m'
      end
  end.

Definition page_indices (page : Z) : list Z :=
  seqZ (Z.shiftl page 3) (Z.shiftl (page + 1) 3 - Z.shiftl page 3).

Definition duty (h : OneWireHub) (d : DS2438New)
  : option (OneWireHub * DS2438New) :=
  match recv h with
  | (None, h) => Some (h, d)
  | (Some cmd, h) =>
      if cmd =? 0xBE then          (* Read Scratchpad *)
        match recv h with
        | (None, h) => Some (h, d)
        | (Some page, h) =>
            if page >=? PAGE_COUNT then Some (h, d)
            else
              bytes ← slice (memory d) (page * 8) 8;
              let '(failed, h) := send bytes h in
              if failed then Some (h, d)
              else
                c ← load (crc d) page;
                let '(_, h) := send [c] h in Some (h, d)
        end
      else if cmd =? 0x4E then     (* Write Scratchpad *)
        match recv h with
        | (None, h) => Some (h, d)
        | (Some page, h) =>
            if page >=? PAGE_COUNT then Some (h, d)
            else
              '(h, m) ← write_page_loop (page_indices page) h (memory d);
              d' ← calcCRC page (set_memory m d);
              Some (h, d')
        end
      else if cmd =? 0x48 then     (* Copy Scratchpad *)
        match recv h with
        | (None, h) => Some (h, d)
        | (Some page, h) =>
            if page >=? PAGE_COUNT then Some (h, d) else Some (h, d)
        end
      else if cmd =? 0xB8 then     (* Recall Memory *)
        match recv h with
        | (None, h) => Some (h, d)
        | (Some page, h) =>
            if page >=? PAGE_COUNT then Some (h, d) else Some (h, d)
        end
      else if cmd =? 0x44 then     (* Convert T *)
        d' ← calcCRC 0 d; Some (h, d')
      else if cmd =? 0xB4 then     (* Convert V *)
        d' ← updateVoltage 0 d;
        d' ← calcCRC 0 d';
        Some (h, d')
      else Some (raiseSlaveError cmd h, d)
  end.

(** ** Specification vocabulary *)

(** The 8 bytes of page [p] of a register memory. *)
Definition page_bytes (m : list Z) (p : Z) : list Z :=
  take (Z.to_nat 8) (drop (Z.to_nat (p * 8)) m).

(** Every per-page checksum matches the bytes of its page. *)
Definition crc_ok (d : DS2438New) : Prop :=
  ∀ p, 0 <= p < PAGE_COUNT →
    load (crc d) p = Some (crc8 (page_bytes (memory d) p)).

(** [d'] differs from [d] in the bytes of page [p] at most, and the checksum
    of that page has been recomputed. *)
Definition page_update (p : Z) (d d' : DS2438New) : Prop :=
  wf d' ∧
  (∀ j : nat, ¬ (p * 8 <= Z.of_nat j < p * 8 + 8) →
     memory d' !! j = memory d !! j) ∧
  (∀ q, 0 <= q → q ≠ p → load (crc d') q = load (crc d) q) ∧
  load (crc d') p = Some (crc8 (page_bytes (memory d') p)) ∧
  vadVoltage d' = vadVoltage d ∧ vddVoltage d' = vddVoltage d.

(** The public operations that can change the device, with their
    arguments. *)
Inductive operation :=
  | OpClearMemory
  | OpWriteMemory (source : list Z) (length position : Z)
  | OpSetTemperatureFloat (temp_degC : spec_float)
  | OpSetTemperatureInt8 (temp_degC : Z)
  | OpSetVADVoltage (voltage_10mV : Z)
  | OpSetVDDVoltage (voltage_10mV : Z)
  | OpSetCurrent (value : Z)
  | OpDuty (h : OneWireHub).

Definition perform (o : operation) (d : DS2438New) : option DS2438New :=
  match o with
  | OpClearMemory => clearMemory d
  | OpWriteMemory source length position =>
      snd <$> writeMemory source length position d
  | OpSetTemperatureFloat t => setTemperature_float t d
  | OpSetTemperatureInt8 t => setTemperature_int8 t d
  | OpSetVADVoltage v => setVADVoltage v d
  | OpSetVDDVoltage v => setVDDVoltage v d
  | OpSetCurrent c => setCurrent c d
  | OpDuty h => snd <$> duty h d
  end.

(** The arguments fit their C types, the source buffer holds the bytes the
    caller announces, and the float conversion is defined. *)
Definition admissible (o : operation) : Prop :=
  match o with
  | OpClearMemory => True
  | OpWriteMemory source len position =>
      is_uint8 len ∧ is_uint8 position ∧ len <= Z.of_nat (length source)
  | OpSetTemperatureFloat t =>
      is_Some (float_to_int16 (float_mul t float_256))
  | OpSetTemperatureInt8 t => is_int8 t
  | OpSetVADVoltage v => is_uint16 v
  | OpSetVDDVoltage v => is_uint16 v
  | OpSetCurrent c => is_int16 c
  | OpDuty h => Forall is_uint8 (rx h)
  end.

(** The states a device can be in: constructed, then any number of public
    operations. *)
Inductive reachable : DS2438New → Prop :=
  | reach_construct raw d :
      wf raw → construct raw = Some d → reachable d
  | reach_perform o d d' :
      reachable d → admissible o → perform o d = Some d' → reachable d'.

(** The six command bytes of the dispatcher. *)
Definition recognised (cmd : Z) : bool :=
  (cmd =? 0xBE) || (cmd =? 0x4E) || (cmd =? 0x48) || (cmd =? 0xB8) ||
  (cmd =? 0x44) || (cmd =? 0xB4).

(** The commands that take a page index. *)
Definition takes_page (cmd : Z) : bool :=
  (cmd =? 0xBE) || (cmd =? 0x4E) || (cmd =? 0x48) || (cmd =? 0xB8).

(** ** The sketch (MQ135As1W.ino)

    [setup()] and the sensor part of [loop()] of the sketch, in its version
    with the moving average.  Serial logging, the LED and the timing of the
    polling loop are left out: they touch neither the globals nor the
    device. *)

Definition MA_READINGS : Z := 48.

(** The globals [ma_total], [ma_output] and [ma_init] (an [int] used as a
    flag). *)
Record Sketch := mkSketch {
  ma_total : Z;
  ma_output : Z;
  ma_init : Z
}.

(** The initialisers of the globals. *)
Definition sketch_start : Sketch := mkSketch 0 0 0.

(** The result of an arithmetic operation on [int]: signed overflow is
    undefined.  [INT_MAX] is the largest [int] of the target (32767 on the
    AVR boards the sketch is written for). *)
Definition int_result (INT_MAX z : Z) : option Z :=
  if (- INT_MAX - 1 <=? z) && (z <=? INT_MAX) then Some z else None.

(** The update of the moving average in [loop()] for the reading [mq135]. *)
Definition moving_average (INT_MAX mq135 : Z) (s : Sketch) : option Sketch :=
  if ma_init s =? 0 then
    let output := mq135 in
    total ← int_result INT_MAX (output * MA_READINGS);
    Some (mkSketch total output 1)
  else
    total ← int_result INT_MAX (ma_total s - ma_output s);
    total ← int_result INT_MAX (total + mq135);
    Some (mkSketch total (Z.quot total MA_READINGS) (ma_init s)).

(** [loop()] up to the polling: the average is updated and handed to the
    device as the VAD voltage (an [int] converted to [uint16_t]). *)
Definition loop_reading (INT_MAX mq135 : Z) (s : Sketch) (d : DS2438New)
  : option (Sketch * DS2438New) :=
  s' ← moving_average INT_MAX mq135 s;
  d' ← setVADVoltage (to_uint16 (ma_output s')) d;
  Some (s', d').

(** Successive readings. *)
Fixpoint loop_readings (INT_MAX : Z) (readings : list Z) (s : Sketch)
    (d : DS2438New) : option (Sketch * DS2438New) :=
  match readings with
  | [] => Some (s, d)
  | mq135 :: rest =>
      '(s', d') ← loop_reading INT_MAX mq135 s d;
      loop_readings INT_MAX rest s' d'
  end.

(** The state of the globals once a reading has been taken: the total is
    not negative and the output is the total divided by the number of
    readings. *)
Definition averaging (s : Sketch) : Prop :=
  ma_init s ≠ 0 ∧ 0 <= ma_total s ∧ ma_output s = ma_total s / MA_READINGS.

(** Sample globals, with an average of 100. *)
Definition sample_sketch : Sketch := mkSketch 4800 100 1.

(** The mark ['#'] of a stored address. *)
Definition ADDRESS_MARK : Z := 35.

(** [for (i = 1; i < 7; i++) addr[i] = EEPROM.read(i);] *)
Fixpoint read_address (indices : list Z) (eeprom addr : list Z)
  : option (list Z) :=
  match indices with
  | [] => Some addr
  | i :: rest =>
      b ← load eeprom i;
      addr ← store addr i b;
      read_address rest eeprom addr
  end.

(** [for (i = 1; i < 7; i++) { addr[i] = TrueRandom.random(256);
    EEPROM.write(i, addr[i]); }]: [random n] is the result of the n-th call
    of the generator, [drawn] the number of calls made so far. *)
Fixpoint generate_address (indices : list Z) (random : nat → Z) (drawn : nat)
    (eeprom addr : list Z) : option (list Z * list Z) :=
  match indices with
  | [] => Some (addr, eeprom)
  | i :: rest =>
      addr ← store addr i (to_uint8 (random drawn));
      b ← load addr i;
      eeprom ← store eeprom i b;
      generate_address rest random (S drawn) eeprom addr
  end.

(** The address part of [setup()]: the global [addr] (all zero at start) and
    the EEPROM afterwards. *)
Definition setup_address (random : nat → Z) (eeprom : list Z)
  : option (list Z * list Z) :=
  mark ← load eeprom 0;
  if mark =? ADDRESS_MARK then
    addr ← read_address (seqZ 1 6) eeprom (replicate 7 0);
    Some (addr, eeprom)
  else
    '(addr, eeprom) ← generate_address (seqZ 1 6) random 0 eeprom
                        (replicate 7 0);
    eeprom ← store eeprom 0 ADDRESS_MARK;
    Some (addr, eeprom).

(** The device part of [setup()]: [new DS2438New(...)], [setCurrent(0)],
    [setVDDVoltage(0)], [setTemperature((int8_t) 0)]. *)
Definition setup_device (raw : DS2438New) : option DS2438New :=
  d ← construct raw;
  d ← setCurrent 0 d;
  d ← setVDDVoltage 0 d;
  setTemperature_int8 0 d.

(** The 16-bit value of two register bytes, low byte first. *)
Definition register16 (lo hi : Z) : Z := to_int16 (hi * 256 + lo).


(** ** Array accesses inside the bounds *)

Lemma load_lookup (a : list Z) (i : Z) :
  0 <= i → load a i = a !! Z.to_nat i.
Proof. intros Hi. unfold load. destruct (Z.leb_spec 0 i); [done | lia]. Qed.

Lemma load_is_Some (a : list Z) (i : Z) :
  0 <= i < Z.of_nat (length a) → is_Some (load a i).
Proof.
  intros Hi. rewrite load_lookup by lia. apply lookup_lt_is_Some. lia.
Qed.

Lemma store_inside (a : list Z) (i v : Z) :
  0 <= i < Z.of_nat (length a) → store a i v = Some (<[Z.to_nat i := v]> a).
Proof.
  intros Hi. unfold store.
  destruct (Z.leb_spec 0 i); [| lia].
  destruct (Z.ltb_spec i (Z.of_nat (length a))); [done | lia].
Qed.

Lemma store_Some (a a' : list Z) (i v : Z) :
  store a i v = Some a' →
  0 <= i < Z.of_nat (length a) ∧ a' = <[Z.to_nat i := v]> a.
Proof.
  unfold store.
  destruct (Z.leb_spec 0 i); simpl; [| done].
  destruct (Z.ltb_spec i (Z.of_nat (length a))); [| done].
  intros [= <-]. split; [lia | done].
Qed.

Lemma slice_inside (a : list Z) (off n : Z) :
  0 <= off → 0 <= n → off + n <= Z.of_nat (length a) →
  slice a off n = Some (take (Z.to_nat n) (drop (Z.to_nat off) a)).
Proof.
  intros Hoff Hn Hlen. unfold slice.
  destruct (Z.leb_spec 0 off); [| lia].
  destruct (Z.leb_spec 0 n); [| lia].
  destruct (Z.leb_spec (off + n) (Z.of_nat (length a))); [done | lia].
Qed.

Lemma memcpy_inside (dst src : list Z) (doff soff n : Z) :
  0 <= doff → 0 <= soff → 0 <= n →
  doff + n <= Z.of_nat (length dst) → soff + n <= Z.of_nat (length src) →
  memcpy dst doff src soff n =
  Some (list_inserts (Z.to_nat doff)
          (take (Z.to_nat n) (drop (Z.to_nat soff) src)) dst).
Proof.
  intros Hd Hs Hn Hdl Hsl. unfold memcpy.
  rewrite slice_inside by lia. simpl.
  destruct (Z.leb_spec 0 doff); [| lia].
  destruct (Z.leb_spec (doff + n) (Z.of_nat (length dst))); [done | lia].
Qed.

(** Reading a byte of a page through the page's byte list. *)
Lemma page_bytes_lookup (m : list Z) (p : Z) (i : nat) :
  0 <= p → (i < 8)%nat →
  page_bytes m p !! i = m !! (Z.to_nat (p * 8) + i)%nat.
Proof.
  intros Hp Hi. unfold page_bytes.
  rewrite lookup_take_lt by (simpl; lia). apply lookup_drop.
Qed.

(** The bytes of a page depend on the 8 cells of the page only. *)
Lemma page_bytes_ext (m m' : list Z) (p : Z) :
  0 <= p →
  (∀ j, p * 8 <= j < p * 8 + 8 → m' !! Z.to_nat j = m !! Z.to_nat j) →
  page_bytes m' p = page_bytes m p.
Proof.
  intros Hp Hsame. apply list_eq. intros i.
  destruct (decide (i < 8)%nat) as [Hi | Hi].
  - rewrite !page_bytes_lookup by done.
    replace (Z.to_nat (p * 8) + i)%nat with (Z.to_nat (p * 8 + Z.of_nat i))
      by lia.
    apply Hsame. lia.
  - unfold page_bytes. rewrite !lookup_take_ge; [done | simpl; lia ..].
Qed.

Lemma page_bytes_insert_outside (m : list Z) (p : Z) (i : nat) (v : Z) :
  0 <= p → ¬ (p * 8 <= Z.of_nat i < p * 8 + 8) →
  page_bytes (<[i := v]> m) p = page_bytes m p.
Proof.
  intros Hp Hout. apply page_bytes_ext; [done |].
  intros j Hj. apply list_lookup_insert_ne. lia.
Qed.

(** ** The CRC engine *)

Lemma calcCRC_inside (page : Z) (d : DS2438New) :
  wf d → 0 <= page < PAGE_COUNT →
  calcCRC page d =
  Some (set_crc (<[Z.to_nat page := crc8 (page_bytes (memory d) page)]>
                   (crc d)) d).
Proof.
  intros (Hm & Hc & _) Hp. unfold calcCRC, PAGE_COUNT in *.
  destruct (Z.ltb_spec page 8); [| lia].
  rewrite slice_inside by lia. simpl.
  rewrite store_inside by lia. done.
Qed.

Lemma calcCRC_outside (page : Z) (d : DS2438New) :
  PAGE_COUNT <= page → calcCRC page d = Some d.
Proof.
  intros Hp. unfold calcCRC.
  destruct (Z.ltb_spec page PAGE_COUNT); [lia | done].
Qed.

Lemma wf_set_crc (c : list Z) (d : DS2438New) :
  wf d → length c = length (crc d) → wf (set_crc c d).
Proof. intros (Hm & Hc & Hv). unfold wf. simpl. intros ->. done. Qed.

Lemma wf_set_memory (m : list Z) (d : DS2438New) :
  wf d → length m = length (memory d) → wf (set_memory m d).
Proof. intros (Hm & Hc & Hv). unfold wf. simpl. intros ->. done. Qed.

Lemma load_insert (a : list Z) (i j v : Z) :
  0 <= i < Z.of_nat (length a) → 0 <= j →
  load (<[Z.to_nat i := v]> a) j = if i =? j then Some v else load a j.
Proof.
  intros Hi Hj. rewrite !load_lookup by done.
  destruct (Z.eqb_spec i j) as [-> | Hne].
  - apply list_lookup_insert_eq. lia.
  - apply list_lookup_insert_ne. lia.
Qed.

(** What one recomputation does to the device, for a page inside the
    array or not. *)
Lemma calcCRC_effect (page : Z) (d : DS2438New) :
  wf d → 0 <= page →
  ∃ d', calcCRC page d = Some d' ∧ wf d' ∧
    memory d' = memory d ∧
    vadVoltage d' = vadVoltage d ∧ vddVoltage d' = vddVoltage d ∧
    ∀ p, 0 <= p →
      load (crc d') p =
      if (p =? page) && (page <? PAGE_COUNT)
      then Some (crc8 (page_bytes (memory d) p)) else load (crc d) p.
Proof.
  intros Hwf Hp. destruct (Z.ltb_spec page PAGE_COUNT) as [Hlt | Hge].
  - rewrite calcCRC_inside by done. eexists. split; [done |].
    split; [apply wf_set_crc; [done | apply length_insert] |].
    do 3 (split; [done |]). intros p Hp0. simpl.
    destruct Hwf as (_ & Hc & _). unfold PAGE_COUNT in *.
    rewrite load_insert by lia. rewrite Z.eqb_sym.
    destruct (Z.eqb_spec p page) as [-> | Hne]; simpl; done.
  - rewrite calcCRC_outside by done. exists d.
    do 5 (split; [done |]). intros p _.
    destruct (Z.ltb_spec page PAGE_COUNT); [lia |]. by rewrite andb_false_r.
Qed.

Lemma calcCRC_pages_effect (pages : list Z) (d : DS2438New) :
  wf d → Forall (λ p, 0 <= p) pages →
  ∃ d', calcCRC_pages pages d = Some d' ∧ wf d' ∧
    memory d' = memory d ∧
    vadVoltage d' = vadVoltage d ∧ vddVoltage d' = vddVoltage d ∧
    ∀ p, 0 <= p →
      load (crc d') p =
      if bool_decide (p ∈ pages) && (p <? PAGE_COUNT)
      then Some (crc8 (page_bytes (memory d) p)) else load (crc d) p.
Proof.
  intros Hwf Hpos. revert d Hwf.
  induction Hpos as [| q rest Hq Hrest IH]; intros d Hwf.
  - exists d. by do 5 (split; [done |]).
  - simpl. destruct (calcCRC_effect q d Hwf Hq)
      as (d1 & -> & Hwf1 & Hm1 & Hva1 & Hvd1 & Hc1). simpl.
    destruct (IH d1 Hwf1) as (d' & -> & Hwf' & Hm' & Hva' & Hvd' & Hc').
    exists d'. split; [done |]. split; [done |].
    split; [congruence |]. split; [congruence |]. split; [congruence |].
    intros p Hp. rewrite Hc', Hc1, Hm1 by done.
    destruct (Z.ltb_spec p PAGE_COUNT) as [Hlt | Hge].
    + rewrite !andb_true_r.
      destruct (Z.eqb_spec p q) as [-> | Hne].
      * destruct (Z.ltb_spec q PAGE_COUNT); [| lia].
        rewrite (bool_decide_eq_true_2 (q ∈ q :: rest)) by left.
        by destruct (bool_decide (q ∈ rest)).
      * simpl. destruct (decide (p ∈ rest)) as [Hin | Hin].
        -- rewrite !bool_decide_eq_true_2; [done | by right | done].
        -- rewrite !bool_decide_eq_false_2; [done | | done].
           intros [? | ?]%elem_of_cons; done.
    + rewrite !andb_false_r.
      destruct (Z.eqb_spec p q) as [-> | Hne]; [| done].
      destruct (Z.ltb_spec q PAGE_COUNT); [lia | done].
Qed.

(** The checksums stay right when every page either keeps its bytes and its
    checksum or has its checksum recomputed. *)
Lemma crc_ok_step (d d' : DS2438New) :
  crc_ok d →
  (∀ p, 0 <= p < PAGE_COUNT →
     (page_bytes (memory d') p = page_bytes (memory d) p ∧
      load (crc d') p = load (crc d) p) ∨
     load (crc d') p = Some (crc8 (page_bytes (memory d') p))) →
  crc_ok d'.
Proof.
  intros Hok Hstep p Hp. destruct (Hstep p Hp) as [[Hb Hc] | Hc]; [| done].
  rewrite Hc, Hb. by apply Hok.
Qed.

(** Recomputing the checksum of page [p] after a change of the memory that
    is confined to page [p]. *)
Lemma recompute_touched (p : Z) (m : list Z) (d : DS2438New) :
  wf d → 0 <= p < PAGE_COUNT →
  length m = length (memory d) →
  (∀ j : nat, ¬ (p * 8 <= Z.of_nat j < p * 8 + 8) → m !! j = memory d !! j) →
  ∃ d', calcCRC p (set_memory m d) = Some d' ∧ memory d' = m ∧
    page_update p d d'.
Proof.
  intros Hwf Hp Hlen Hout.
  assert (Hwf1 : wf (set_memory m d)) by by apply wf_set_memory.
  destruct (calcCRC_effect p _ Hwf1 ltac:(lia))
    as (d' & Hrun & Hwf' & Hm' & Hva' & Hvd' & Hc').
  simpl in Hm', Hva', Hvd', Hc'.
  exists d'. split; [done |]. split; [done |].
  split; [done |]. split; [by rewrite Hm' |]. split; [| split; [| done]].
  - intros q Hq Hne. rewrite Hc' by done.
    destruct (Z.eqb_spec q p); [done | done].
  - rewrite Hc', Hm' by lia. rewrite Z.eqb_refl.
    destruct (Z.ltb_spec p PAGE_COUNT); [done | lia].
Qed.

Lemma page_update_crc_ok (p : Z) (d d' : DS2438New) :
  0 <= p < PAGE_COUNT → crc_ok d → page_update p d d' → crc_ok d'.
Proof.
  intros Hp Hok (_ & Hmem & Hcrc & Hnew & _).
  apply (crc_ok_step d); [done |]. intros q Hq.
  destruct (decide (q = p)) as [-> | Hne]; [by right | left].
  split; [| apply Hcrc; [lia | done]].
  apply page_bytes_ext; [lia |]. intros j Hj.
  specialize (Hmem (Z.to_nat j)). apply Hmem. lia.
Qed.

Lemma or_reg0_effect (mask : Z) (m : list Z) :
  (0 < length m)%nat →
  ∃ m', or_reg0 mask m = Some m' ∧ length m' = length m.
Proof. clear crc8.
  intros Hlen. unfold or_reg0.
  destruct (load_is_Some m 0 ltac:(lia)) as [b ->]. simpl.
  rewrite store_inside by lia. eexists. split; [done |]. apply length_insert.
Qed.

Lemma clear_reg0_effect (mask : Z) (m : list Z) :
  (0 < length m)%nat →
  ∃ m', clear_reg0 mask m = Some m' ∧ length m' = length m.
Proof. clear crc8.
  intros Hlen. unfold clear_reg0.
  destruct (load_is_Some m 0 ltac:(lia)) as [b ->]. simpl.
  rewrite store_inside by lia. eexists. split; [done |]. apply length_insert.
Qed.

(** [clearMemory] needs nothing of the state it starts from but the array
    sizes. *)
Lemma clearMemory_effect (d : DS2438New) :
  wf d →
  ∃ d', clearMemory d = Some d' ∧ wf d' ∧ crc_ok d' ∧
    vadVoltage d' = vadVoltage d ∧ vddVoltage d' = vddVoltage d.
Proof.
  intros Hwf. pose proof Hwf as (Hm & Hc & Hva & Hvd). unfold clearMemory.
  rewrite memcpy_inside
    by (unfold PAGE_COUNT, PAGE_SIZE; simpl length; lia).
  cbn [mbind option_bind].
  set (m0 := list_inserts _ _ _).
  assert (Hm0 : length m0 = 64%nat) by (unfold m0; by rewrite length_inserts).
  destruct (or_reg0_effect REG0_MASK_IAD m0) as (m1 & -> & Hm1); [lia |].
  cbn [mbind option_bind].
  destruct (or_reg0_effect REG0_MASK_CA m1) as (m2 & -> & Hm2); [lia |].
  cbn [mbind option_bind].
  destruct (clear_reg0_effect REG0_MASK_AD m2) as (m3 & -> & Hm3); [lia |].
  cbn [mbind option_bind].
  destruct (clear_reg0_effect REG0_MASK_TB m3) as (m4 & -> & Hm4); [lia |].
  cbn [mbind option_bind].
  destruct (clear_reg0_effect REG0_MASK_NVB m4) as (m5 & -> & Hm5); [lia |].
  cbn [mbind option_bind].
  destruct (clear_reg0_effect REG0_MASK_ADB m5) as (m6 & -> & Hm6); [lia |].
  cbn [mbind option_bind].
  assert (Hwf6 : wf (set_memory m6 d)) by (apply wf_set_memory; [done | lia]).
  destruct (calcCRC_pages_effect (seqZ 0 PAGE_COUNT) _ Hwf6)
    as (d' & -> & Hwf' & Hm' & Hva' & Hvd' & Hc').
  { apply Forall_forall. intros p Hp%elem_of_seqZ. lia. }
  exists d'. repeat (split; [done |]). split; [| done].
  intros p Hp. rewrite Hc', Hm' by lia.
  rewrite bool_decide_eq_true_2 by (apply elem_of_seqZ; lia).
  destruct (Z.ltb_spec p PAGE_COUNT); [done | lia].
Qed.

(** ** Bit operations as arithmetic *)

Lemma land_0xFF (z : Z) : Z.land z 0xFF = z mod 256.
Proof. change 0xFF with (Z.ones 8). by rewrite Z.land_ones. Qed.

Lemma land_0x03 (z : Z) : Z.land z 0x03 = z mod 4.
Proof. change 0x03 with (Z.ones 2). by rewrite Z.land_ones. Qed.

Lemma shiftr_8 (z : Z) : Z.shiftr z 8 = z / 256.
Proof. by rewrite Z.shiftr_div_pow2. Qed.

Lemma land_shiftl_low (hi lo k : Z) :
  0 <= k → 0 <= lo < 2 ^ k → Z.land (Z.shiftl hi k) lo = 0.
Proof.
  intros Hk Hlo. apply Z.bits_inj'. intros n Hn.
  rewrite Z.land_spec, Z.bits_0.
  destruct (Z.lt_ge_cases n k) as [Hlt | Hge].
  - by rewrite Z.shiftl_spec_low.
  - rewrite <- (Z.mod_small lo (2 ^ k)) by done.
    rewrite Z.mod_pow2_bits_high by lia. apply andb_false_r.
Qed.

Lemma lor_shiftl (hi lo k : Z) :
  0 <= k → 0 <= lo < 2 ^ k → Z.lor (Z.shiftl hi k) lo = hi * 2 ^ k + lo.
Proof.
  intros Hk Hlo. rewrite <- Z.shiftl_mul_pow2 by done.
  rewrite <- Z.lxor_lor by by apply land_shiftl_low.
  symmetry. apply Z.add_nocarry_lxor. by apply land_shiftl_low.
Qed.

(** ** Running a method: stores inside the arrays *)

Ltac run_store :=
  rewrite store_inside by (rewrite ?length_insert; lia);
  cbn [mbind option_bind].

Ltac run_load :=
  rewrite load_lookup by lia;
  rewrite ?list_lookup_insert_eq by (rewrite ?length_insert; lia);
  cbn [mbind option_bind].

(** ** The value encoder *)

Lemma set_voltage_effect (voltage_10mV : Z) (v : list Z) :
  length v = 2%nat →
  set_voltage voltage_10mV v =
  Some [to_uint8 (Z.land voltage_10mV 0xFF);
        to_uint8 (Z.land (Z.shiftr voltage_10mV 8) 0x03)].
Proof.
  intros Hlen. destruct v as [| a [| b [| ? ?]]]; try done.
Qed.

Lemma voltage_encoding (voltage_10mV : Z) (v : list Z) :
  length v = 2%nat →
  ∃ v', set_voltage voltage_10mV v = Some v' ∧ length v' = 2%nat ∧
    get_voltage v' = Some (voltage_10mV mod 1024).
Proof. clear crc8.
  intros Hlen. rewrite set_voltage_effect by done.
  eexists. split; [done |]. split; [done |].
  unfold get_voltage. rewrite !load_lookup by lia.
  change (Z.to_nat 1) with 1%nat. change (Z.to_nat 0) with 0%nat.
  cbn [lookup list_lookup mbind option_bind]. f_equal.
  unfold to_uint8, to_uint16. rewrite land_0xFF, land_0x03, shiftr_8.
  rewrite (lor_shiftl _ _ 8) by (try apply Z.mod_pos_bound; lia).
  change (2 ^ 8) with 256. Z.to_euclidean_division_equations. lia.
Qed.

(** A method that rewrites bytes of page 0 and ends with [calcCRC(0)]. *)
Lemma recompute_page0 (m : list Z) (d : DS2438New) :
  wf d → length m = length (memory d) →
  (∀ j, (8 <= j)%nat → m !! j = memory d !! j) →
  ∃ d', calcCRC 0 (set_memory m d) = Some d' ∧ memory d' = m ∧
    page_update 0 d d'.
Proof.
  intros Hwf Hlen Hout. apply recompute_touched; [done | done | done |].
  intros j Hj. apply Hout. lia.
Qed.

Lemma setCurrent_effect (value : Z) (d : DS2438New) :
  wf d →
  ∃ d', setCurrent value d = Some d' ∧
    memory d' =
      <[6%nat := if value <? 0
                 then to_uint8 (Z.lor (to_uint8 (Z.land (Z.shiftr value 8) 0x03)) 0xFC)
                 else to_uint8 (Z.land (Z.shiftr value 8) 0x03)]>
        (<[5%nat := to_uint8 (Z.land value 0xFF)]> (memory d)) ∧
    page_update 0 d d'.
Proof.
  intros Hwf. pose proof Hwf as (Hm & _). unfold setCurrent.
  do 2 run_store. change (Z.to_nat 5) with 5%nat. change (Z.to_nat 6) with 6%nat.
  destruct (value <? 0).
  - run_load. run_store. change (Z.to_nat 6) with 6%nat.
    rewrite list_insert_insert_eq.
    apply recompute_page0; [done | by rewrite !length_insert |].
    intros j Hj. by rewrite !list_lookup_insert_ne by lia.
  - cbn [mbind option_bind].
    apply recompute_page0; [done | by rewrite !length_insert |].
    intros j Hj. by rewrite !list_lookup_insert_ne by lia.
Qed.

Lemma setTemperature_float_effect (temp_degC : spec_float) (v0 : Z)
    (d : DS2438New) :
  wf d →
  float_to_int16 (float_mul temp_degC float_256) = Some v0 →
  ∃ d', setTemperature_float temp_degC d = Some d' ∧
    (let value := if v0 >? 125 * 256 then 125 * 256 else v0 in
     let value := if value <? -55 * 256 then -55 * 256 else value in
     memory d' =
       <[2%nat := to_uint8 (Z.shiftr value 8)]>
         (<[1%nat := to_uint8 (Z.land value 0xF8)]> (memory d))) ∧
    page_update 0 d d'.
Proof.
  intros Hwf Hconv. pose proof Hwf as (Hm & _).
  unfold setTemperature_float. rewrite Hconv. cbn [mbind option_bind].
  do 2 run_store. change (Z.to_nat 1) with 1%nat. change (Z.to_nat 2) with 2%nat.
  apply recompute_page0; [done | by rewrite !length_insert |].
  intros j Hj. by rewrite !list_lookup_insert_ne by lia.
Qed.

Lemma setTemperature_int8_effect (temp_degC : Z) (d : DS2438New) :
  wf d →
  ∃ d', setTemperature_int8 temp_degC d = Some d' ∧
    (let value := if temp_degC >? 125 then 125 else temp_degC in
     let value := if value <? -55 then -55 else value in
     memory d' = <[2%nat := to_uint8 value]> (<[1%nat := 0]> (memory d))) ∧
    page_update 0 d d'.
Proof.
  intros Hwf. pose proof Hwf as (Hm & _). unfold setTemperature_int8.
  do 2 run_store. change (Z.to_nat 1) with 1%nat. change (Z.to_nat 2) with 2%nat.
  apply recompute_page0; [done | by rewrite !length_insert |].
  intros j Hj. by rewrite !list_lookup_insert_ne by lia.
Qed.

Lemma setVADVoltage_effect (voltage_10mV : Z) (d : DS2438New) :
  wf d →
  ∃ d', setVADVoltage voltage_10mV d = Some d' ∧ wf d' ∧
    memory d' = memory d ∧ crc d' = crc d ∧ vddVoltage d' = vddVoltage d ∧
    getVADVoltage d' = Some (voltage_10mV mod 1024).
Proof. clear crc8.
  intros (Hm & Hc & Hva & Hvd). unfold setVADVoltage, getVADVoltage.
  destruct (voltage_encoding voltage_10mV _ Hva) as (v' & -> & Hlen & Hget).
  cbn [mbind option_bind]. eexists. split; [done |]. by repeat split.
Qed.

Lemma setVDDVoltage_effect (voltage_10mV : Z) (d : DS2438New) :
  wf d →
  ∃ d', setVDDVoltage voltage_10mV d = Some d' ∧ wf d' ∧
    memory d' = memory d ∧ crc d' = crc d ∧ vadVoltage d' = vadVoltage d ∧
    getVDDVoltage d' = Some (voltage_10mV mod 1024).
Proof. clear crc8.
  intros (Hm & Hc & Hva & Hvd). unfold setVDDVoltage, getVDDVoltage.
  destruct (voltage_encoding voltage_10mV _ Hvd) as (v' & -> & Hlen & Hget).
  cbn [mbind option_bind]. eexists. split; [done |]. by repeat split.
Qed.

(** Convert V latches the selected staged pair into bytes 3 and 4. *)
Lemma updateVoltage_effect (d : DS2438New) :
  wf d →
  ∃ d' cfg lo hi, updateVoltage 0 d = Some d' ∧
    load (memory d) 0 = Some cfg ∧
    (let sel := if to_uint8 (Z.land cfg REG0_MASK_AD) =? 0
                then vadVoltage d else vddVoltage d in
     load sel 0 = Some lo ∧ load sel 1 = Some hi) ∧
    d' = set_memory (<[4%nat := hi]> (<[3%nat := lo]> (memory d))) d.
Proof. clear crc8.
  intros (Hm & Hc & Hva & Hvd). unfold updateVoltage.
  destruct (load_is_Some (memory d) (0 * 8) ltac:(lia)) as [cfg Hcfg].
  rewrite Hcfg. cbn [mbind option_bind].
  set (sel := if _ =? 0 then _ else _).
  assert (Hsel : length sel = 2%nat) by (unfold sel; by destruct (_ =? 0)).
  destruct (load_is_Some sel 0 ltac:(lia)) as [lo Hlo].
  destruct (load_is_Some sel 1 ltac:(lia)) as [hi Hhi].
  rewrite Hlo. cbn [mbind option_bind]. run_store.
  rewrite Hhi. cbn [mbind option_bind]. run_store.
  exists (set_memory (<[4%nat := hi]> (<[3%nat := lo]> (memory d))) d), cfg, lo, hi.
  by repeat split.
Qed.

(** ** The dispatcher *)

(** The receive loop over [n] cells from cell [s]: it consumes up to [n]
    bytes and stores each one in its cell unless the cell is protected. *)
Lemma write_page_loop_effect (n s : nat) (h : OneWireHub) (m : list Z) :
  (s + n <= length m)%nat →
  ∃ h' m', write_page_loop (seqZ (Z.of_nat s) (Z.of_nat n)) h m = Some (h', m') ∧
    length m' = length m ∧
    rx h' = drop n (rx h) ∧ tx h' = tx h ∧ errors h' = errors h ∧
    tx_room h' = tx_room h ∧
    ∀ j : nat,
      m' !! j =
      if bool_decide (s <= j < s + n ∧ j - s < length (rx h) ∧ ¬ (0 < j < 7))%nat
      then rx h !! (j - s)%nat else m !! j.
Proof. clear crc8.
  revert s h m. induction n as [| n IH]; intros s h m Hlen.
  - exists h, m. do 5 (split; [done |]). split; [done |].
    intros j. rewrite bool_decide_eq_false_2; [done | lia].
  - rewrite seqZ_cons by lia.
    replace (Z.succ (Z.of_nat s)) with (Z.of_nat (S s)) by lia.
    replace (Z.pred (Z.of_nat (S n))) with (Z.of_nat n) by lia.
    cbn [write_page_loop]. unfold recv.
    destruct h as [[| b r] room sent errs]; cbn [rx tx_room tx errors].
    + eexists _, m. split; [done |]. cbn [rx tx_room tx errors].
      do 5 (split; [done |]). intros j.
      rewrite bool_decide_eq_false_2; [done | simpl; lia].
    + set (h1 := mkHub r room sent errs).
      destruct ((Z.of_nat s <? 7) && (Z.of_nat s >? 0)) eqn:Hprot.
      * destruct (IH (S s) h1 m ltac:(lia))
          as (h' & m' & -> & Hl & Hrx & Htx & Herr & Hroom & Hm').
        exists h', m'. split; [done |]. do 5 (split; [done |]).
        intros j. rewrite Hm'. cbn [rx h1 length].
        apply andb_true_iff in Hprot as [Hlt%Z.ltb_lt Hgt%Z.gtb_lt].
        repeat case_bool_decide; try done; try lia.
        replace (j - s)%nat with (S (j - S s)) by lia. done.
      * rewrite store_inside by lia. cbn [mbind option_bind].
        rewrite Nat2Z.id.
        destruct (IH (S s) h1 (<[s := b]> m) ltac:(rewrite length_insert; lia))
          as (h' & m' & -> & Hl & Hrx & Htx & Herr & Hroom & Hm').
        exists h', m'. split; [done |].
        split; [by rewrite Hl, length_insert |]. do 4 (split; [done |]).
        intros j. rewrite Hm'. cbn [rx h1 length].
        apply andb_false_iff in Hprot.
        assert (Hfree : ¬ (0 < s < 7)%nat).
        { destruct Hprot as [Hp%Z.ltb_ge | Hp]; [lia |].
          destruct (Z.gtb_spec (Z.of_nat s) 0); [done | lia]. }
        destruct (decide (j = s)) as [-> | Hne].
        -- rewrite bool_decide_eq_false_2 by lia.
           rewrite bool_decide_eq_true_2 by lia.
           rewrite Nat.sub_diag. apply list_lookup_insert_eq. lia.
        -- rewrite list_lookup_insert_ne by done.
           repeat case_bool_decide; try done; try lia.
           replace (j - s)%nat with (S (j - S s)) by lia. done.
Qed.

Lemma page_indices_seqZ (page : Z) :
  0 <= page →
  page_indices page = seqZ (Z.of_nat (Z.to_nat (page * 8))) (Z.of_nat 8).
Proof. clear crc8.
  intros Hp. unfold page_indices. rewrite !Z.shiftl_mul_pow2 by lia.
  f_equal; lia.
Qed.

(** Write Scratchpad on a valid page. *)
Lemma duty_write_page_effect (h : OneWireHub) (d : DS2438New) (page : Z)
    (data : list Z) :
  wf d → 0 <= page < PAGE_COUNT → rx h = 0x4E :: page :: data →
  ∃ h' d', duty h d = Some (h', d') ∧
    rx h' = drop 8 data ∧ tx h' = tx h ∧ errors h' = errors h ∧
    page_update page d d' ∧
    ∀ j : nat,
      memory d' !! j =
      if bool_decide (Z.to_nat (page * 8) <= j < Z.to_nat (page * 8) + 8 ∧
                      j - Z.to_nat (page * 8) < length data ∧
                      ¬ (0 < j < 7))%nat
      then data !! (j - Z.to_nat (page * 8))%nat else memory d !! j.
Proof.
  intros Hwf Hp Hrx. pose proof Hwf as (Hm & _). unfold PAGE_COUNT in Hp.
  unfold duty, recv. rewrite Hrx. cbn [rx tx_room tx errors].
  change (0x4E =? 0xBE) with false. change (0x4E =? 0x4E) with true.
  cbv iota. unfold PAGE_COUNT.
  destruct (Z.geb_spec page 8) as [Hge | _]; [lia |].
  rewrite page_indices_seqZ by lia.
  destruct (write_page_loop_effect 8 (Z.to_nat (page * 8))
              (mkHub data (tx_room h) (tx h) (errors h)) (memory d))
    as (h' & m' & -> & Hl & Hrx' & Htx & Herr & _ & Hm'); [lia |].
  cbn [mbind option_bind]. cbn [rx tx errors] in *.
  destruct (recompute_touched page m' d Hwf ltac:(done) Hl)
    as (d' & -> & Hmem & Hupd).
  { intros j Hj. rewrite Hm'. rewrite bool_decide_eq_false_2; [done | lia]. }
  cbn [mbind option_bind]. exists h', d'.
  do 5 (split; [done |]). intros j. by rewrite Hmem, Hm'.
Qed.

Lemma calcCRC_page_update (p : Z) (d : DS2438New) :
  wf d → 0 <= p < PAGE_COUNT →
  ∃ d', calcCRC p d = Some d' ∧ memory d' = memory d ∧ page_update p d d'.
Proof.
  intros Hwf Hp.
  destruct (recompute_touched p (memory d) d Hwf Hp) as (d' & ? & ? & ?);
    [done | done |].
  exists d'. by destruct d.
Qed.

(** Convert V: the selected pair is latched and the checksum of page 0
    recomputed. *)
Lemma convert_voltage_effect (d : DS2438New) :
  wf d →
  ∃ d' cfg lo hi,
    (d1 ← updateVoltage 0 d; calcCRC 0 d1) = Some d' ∧
    load (memory d) 0 = Some cfg ∧
    (let sel := if to_uint8 (Z.land cfg REG0_MASK_AD) =? 0
                then vadVoltage d else vddVoltage d in
     load sel 0 = Some lo ∧ load sel 1 = Some hi) ∧
    memory d' = <[4%nat := hi]> (<[3%nat := lo]> (memory d)) ∧
    page_update 0 d d'.
Proof.
  intros Hwf.
  destruct (updateVoltage_effect d Hwf) as (d1 & cfg & lo & hi & -> & Hcfg & Hsel & ->).
  cbn [mbind option_bind].
  destruct (recompute_page0 (<[4%nat := hi]> (<[3%nat := lo]> (memory d))) d Hwf)
    as (d' & Hrun & Hmem & Hupd).
  { by rewrite !length_insert. }
  { intros j Hj. by rewrite !list_lookup_insert_ne by lia. }
  by exists d', cfg, lo, hi.
Qed.

Ltac same_device d :=
  eexists _, d; split; [reflexivity |]; split; [by left |]; cbn.

(** What the master sees of one transaction in the error channel. *)
Lemma duty_effect (h : OneWireHub) (d : DS2438New) :
  wf d → Forall is_uint8 (rx h) →
  ∃ h' d', duty h d = Some (h', d') ∧
    (d' = d ∨ ∃ p, 0 <= p < PAGE_COUNT ∧ page_update p d d') ∧
    errors h' =
      match rx h with
      | [] => errors h
      | cmd :: _ => if recognised cmd then errors h else errors h ++ [cmd]
      end.
Proof.
  intros Hwf Hbytes. pose proof Hwf as (Hm & Hc & _).
  destruct (rx h) as [| cmd rest] eqn:Hrx.
  { unfold duty, recv. rewrite Hrx. by same_device d. }
  destruct (Z.eqb_spec cmd 0x4E) as [-> | N2].
  { (* Write Scratchpad *)
    destruct rest as [| page data].
    { unfold duty, recv. rewrite Hrx. by same_device d. }
    assert (0 <= page) as Hp0.
    { apply Forall_cons in Hbytes as [_ [Hp _]%Forall_cons]. apply Hp. }
    destruct (Z.ltb_spec page PAGE_COUNT) as [Hlt | Hge].
    - destruct (duty_write_page_effect h d page data Hwf ltac:(lia) Hrx)
        as (h' & d' & -> & _ & _ & Herr & Hupd & _).
      exists h', d'. split; [done |]. split; [| done]. right. exists page.
      split; [lia | done].
    - unfold duty, recv. rewrite Hrx. cbn [rx tx_room tx errors].
      change (0x4E =? 0xBE) with false. change (0x4E =? 0x4E) with true.
      cbv iota. destruct (Z.geb_spec page PAGE_COUNT); [| lia].
      by same_device d. }
  unfold duty, recv. rewrite Hrx. cbn [rx tx_room tx errors]. unfold recognised.
  destruct (Z.eqb_spec cmd 0xBE) as [-> | N1].
  { (* Read Scratchpad *)
    destruct rest as [| page rest]; [by same_device d |].
    cbn [rx tx_room tx errors]. unfold PAGE_COUNT.
    destruct (Z.geb_spec page 8) as [Hge | Hlt]; [by same_device d |].
    assert (0 <= page) as Hp0.
    { apply Forall_cons in Hbytes as [_ [Hp _]%Forall_cons]. apply Hp. }
    rewrite slice_inside by lia. cbn [mbind option_bind].
    destruct (send _ _) as [failed h1] eqn:Hsend.
    assert (errors h1 = errors h) as Herr1.
    { unfold send in Hsend. by injection Hsend as _ <-. }
    destruct failed; [by same_device d |].
    destruct (load_is_Some (crc d) page ltac:(lia)) as [c ->].
    cbn [mbind option_bind].
    destruct (send [c] h1) as [failed h2] eqn:Hsend2.
    assert (errors h2 = errors h1) as Herr2.
    { unfold send in Hsend2. by injection Hsend2 as _ <-. }
    exists h2, d. split; [done |]. split; [by left |]. cbn. congruence. }
  destruct (Z.eqb_spec cmd 0x4E) as [? | _]; [done |].
  destruct (Z.eqb_spec cmd 0x48) as [-> | N3].
  { destruct rest as [| page rest]; [by same_device d |].
    destruct (page >=? PAGE_COUNT); by same_device d. }
  destruct (Z.eqb_spec cmd 0xB8) as [-> | N4].
  { destruct rest as [| page rest]; [by same_device d |].
    destruct (page >=? PAGE_COUNT); by same_device d. }
  destruct (Z.eqb_spec cmd 0x44) as [-> | N5].
  { (* Convert T *)
    destruct (calcCRC_page_update 0 d Hwf) as (d' & -> & _ & Hupd); [done |].
    cbn [mbind option_bind]. eexists _, d'. split; [done |].
    split; [| done]. right. by exists 0. }
  destruct (Z.eqb_spec cmd 0xB4) as [-> | N6].
  { (* Convert V *)
    destruct (convert_voltage_effect d Hwf)
      as (d' & cfg & lo & hi & Hrun & _ & _ & _ & Hupd).
    cbn [mbind option_bind] in Hrun.
    destruct (updateVoltage 0 d) as [d1 |]; [| done].
    cbn [mbind option_bind] in *. rewrite Hrun. cbn [mbind option_bind].
    eexists _, d'. split; [done |]. split; [| done]. right. by exists 0. }
  by same_device d.
Qed.

(** ** The register memory store *)

Lemma clip_length_min (len position : Z) :
  is_uint8 len → 0 <= position < MEM_SIZE →
  clip_length len position = Z.min len (MEM_SIZE - position).
Proof. clear crc8.
  unfold is_uint8, clip_length, to_uint16, MEM_SIZE, PAGE_COUNT, PAGE_SIZE.
  intros Hl Hp. change (8 * 8) with 64 in *.
  destruct (Z.geb_spec (position + len) 64); rewrite Z.mod_small; lia.
Qed.

Lemma writeMemory_effect (source : list Z) (len position : Z) (d : DS2438New) :
  wf d → is_uint8 len → 0 <= position < MEM_SIZE →
  len <= Z.of_nat (length source) →
  ∃ d', writeMemory source len position d = Some (true, d') ∧ wf d' ∧
    memory d' =
      list_inserts (Z.to_nat position)
        (take (Z.to_nat (Z.min len (MEM_SIZE - position))) source) (memory d) ∧
    vadVoltage d' = vadVoltage d ∧ vddVoltage d' = vddVoltage d ∧
    ∀ p, 0 <= p →
      load (crc d') p =
      if (position / 8 <=? p) && (p <=? (position + len) / 8) && (p <? PAGE_COUNT)
      then Some (crc8 (page_bytes (memory d') p)) else load (crc d) p.
Proof.
  intros Hwf Hl Hp Hsrc. pose proof Hwf as (Hm & _).
  unfold writeMemory. destruct (Z.geb_spec position MEM_SIZE); [lia |].
  rewrite clip_length_min by done.
  unfold is_uint8, MEM_SIZE, PAGE_COUNT, PAGE_SIZE in *.
  change (8 * 8) with 64 in *.
  rewrite memcpy_inside by lia. cbn [mbind option_bind].
  change (Z.to_nat 0) with 0%nat. rewrite drop_0.
  set (m := list_inserts _ _ _).
  assert (Hwf1 : wf (set_memory m d)).
  { apply wf_set_memory; [done |]. unfold m. by rewrite length_inserts. }
  rewrite !Z.shiftr_div_pow2 by lia. change (2 ^ 3) with 8.
  unfold to_uint8.
  rewrite (Z.mod_small (position / 8)) by (Z.to_euclidean_division_equations; lia).
  rewrite (Z.mod_small ((position + len) / 8))
    by (Z.to_euclidean_division_equations; lia).
  destruct (calcCRC_pages_effect
              (seqZ (position / 8) ((position + len) / 8 - position / 8 + 1))
              _ Hwf1)
    as (d' & -> & Hwf' & Hm' & Hva' & Hvd' & Hc').
  { apply Forall_forall. intros p Hin%elem_of_seqZ.
    Z.to_euclidean_division_equations; lia. }
  cbn [mbind option_bind]. exists d'. split; [done |]. split; [done |].
  split; [done |]. split; [done |]. split; [done |].
  intros p Hp0. rewrite Hc', Hm' by done. cbn [memory set_memory].
  destruct (Z.leb_spec (position / 8) p); destruct (Z.leb_spec p ((position + len) / 8));
    cbn [andb];
    [ rewrite bool_decide_eq_true_2 by (apply elem_of_seqZ; lia); done
    | rewrite bool_decide_eq_false_2 by (rewrite elem_of_seqZ; lia); done ..].
Qed.

(** A page the recomputation loop of writeMemory leaves out holds none of
    the written bytes. *)
Lemma writeMemory_untouched_page (source : list Z) (n : nat) (position len p : Z)
    (m : list Z) :
  0 <= position → 0 <= p → Z.of_nat n <= len →
  ¬ (position / 8 <= p <= (position + len) / 8) →
  page_bytes (list_inserts (Z.to_nat position) (take n source) m) p =
  page_bytes m p.
Proof.
  intros Hpos Hp Hn Hout. apply page_bytes_ext; [done |]. intros j Hj.
  assert (Htake : (length (take n source) <= n)%nat)
    by (rewrite length_take; lia).
  destruct (decide (j < position)) as [Hlt | Hge].
  - apply list_lookup_inserts_lt. lia.
  - apply list_lookup_inserts_ge.
    Z.to_euclidean_division_equations. lia.
Qed.

(** ** The checksum invariant *)

(** Every public operation called with admissible arguments completes and
    keeps the array sizes and the checksums. *)
Lemma perform_effect (o : operation) (d : DS2438New) :
  wf d → crc_ok d → admissible o →
  ∃ d', perform o d = Some d' ∧ wf d' ∧ crc_ok d'.
Proof.
  intros Hwf Hok Hadm. destruct o as [| source len position | t | t | v | v | c | h];
    cbn [perform admissible] in *.
  - destruct (clearMemory_effect d Hwf) as (d' & ? & ? & ? & _). by exists d'.
  - destruct Hadm as (Hlen & Hpos & Hsrc).
    destruct (Z.lt_ge_cases position MEM_SIZE) as [Hin | Hout].
    + destruct (writeMemory_effect source len position d Hwf Hlen
                  ltac:(unfold is_uint8 in Hpos; lia) Hsrc)
        as (d' & -> & Hwf' & Hm' & _ & _ & Hc').
      exists d'. split; [done |]. split; [done |].
      apply (crc_ok_step d); [done |]. intros p Hp. rewrite Hc' by lia.
      destruct ((position / 8 <=? p) && (p <=? (position + len) / 8)) eqn:Hrange.
      * right. destruct (Z.ltb_spec p PAGE_COUNT); [done | lia].
      * left. split; [| done]. rewrite Hm'.
        unfold is_uint8, MEM_SIZE, PAGE_COUNT, PAGE_SIZE in *.
        apply (writeMemory_untouched_page _ _ _ len); [lia | lia | lia |].
        apply andb_false_iff in Hrange as [?%Z.leb_gt | ?%Z.leb_gt]; lia.
    + unfold writeMemory. destruct (Z.geb_spec position MEM_SIZE); [| lia].
      by exists d.
  - destruct Hadm as [v0 Hv0].
    destruct (setTemperature_float_effect t v0 d Hwf Hv0) as (d' & ? & _ & Hupd).
    exists d'. split; [done |]. split; [apply Hupd |].
    by apply (page_update_crc_ok 0 d).
  - destruct (setTemperature_int8_effect t d Hwf) as (d' & ? & _ & Hupd).
    exists d'. split; [done |]. split; [apply Hupd |].
    by apply (page_update_crc_ok 0 d).
  - destruct (setVADVoltage_effect v d Hwf) as (d' & ? & ? & Hm' & Hc' & _).
    exists d'. split; [done |]. split; [done |].
    intros p Hp. rewrite Hm', Hc'. by apply Hok.
  - destruct (setVDDVoltage_effect v d Hwf) as (d' & ? & ? & Hm' & Hc' & _).
    exists d'. split; [done |]. split; [done |].
    intros p Hp. rewrite Hm', Hc'. by apply Hok.
  - destruct (setCurrent_effect c d Hwf) as (d' & ? & _ & Hupd).
    exists d'. split; [done |]. split; [apply Hupd |].
    by apply (page_update_crc_ok 0 d).
  - destruct (duty_effect h d Hwf Hadm) as (h' & d' & -> & Hd' & _).
    exists d'. split; [done |].
    destruct Hd' as [-> | (p & Hp & Hupd)]; [done |].
    split; [apply Hupd | by apply (page_update_crc_ok p d)].
Qed.

Lemma reachable_wf_crc_ok (d : DS2438New) : reachable d → wf d ∧ crc_ok d.
Proof.
  induction 1 as [raw d Hraw Hrun | o d d' Hreach [Hwf Hok] Hadm Hrun].
  - destruct (clearMemory_effect raw Hraw) as (d0 & Hrun0 & ? & ? & _).
    unfold construct in Hrun. by simplify_eq.
  - destruct (perform_effect o d Hwf Hok Hadm) as (d0 & Hrun0 & ? & ?).
    by simplify_eq.
Qed.

(** C1. For a device in any state it can reach (construction followed by
    public operations), the stored checksum of every page p < 8 equals crc8
    of the 8 bytes of page p, and every public operation called on it
    (clearMemory, writeMemory, either setTemperature, setCurrent, the voltage
    setters, or a duty invocation with any command) completes and leaves
    every checksum equal to crc8 of the bytes of its page. *)
Theorem crc_invariant (d : DS2438New) :
  reachable d →
  crc_ok d ∧
  ∀ o, admissible o →
    ∃ d', perform o d = Some d' ∧
      ∀ p, 0 <= p < PAGE_COUNT →
        load (crc d') p = Some (crc8 (page_bytes (memory d') p)).
Proof.
  intros Hreach. destruct (reachable_wf_crc_ok d Hreach) as [Hwf Hok].
  split; [done |]. intros o Hadm.
  destruct (perform_effect o d Hwf Hok Hadm) as (d' & Hrun & _ & Hok').
  by exists d'.
Qed.

(** ** Write Scratchpad *)

(** C2. In a Write Page (0x4E) transaction on a valid page, the i-th data
    byte targets offset i of the page: on page 0 the bytes for offsets 1 to 6
    are dropped (the cells keep their values) while the following bytes are
    still consumed, the bytes for offsets 0 and 7 are stored; on any other
    page every received byte is stored; cells for which no byte arrived and
    all other pages keep their values; up to 8 data bytes are consumed and
    the checksum of the page is recomputed afterwards. *)
Theorem write_page_protection (h : OneWireHub) (d : DS2438New) (page : Z)
    (data : list Z) :
  wf d → 0 <= page < PAGE_COUNT → rx h = 0x4E :: page :: data →
  ∃ h' d', duty h d = Some (h', d') ∧
    rx h' = drop 8 data ∧
    (∀ i, 0 <= i < 8 →
       load (memory d') (page * 8 + i) =
       if (i <? Z.of_nat (length data)) &&
          negb ((page =? 0) && (1 <=? i) && (i <=? 6))
       then data !! Z.to_nat i
       else load (memory d) (page * 8 + i)) ∧
    (∀ j, 0 <= j → ¬ (page * 8 <= j < page * 8 + 8) →
       load (memory d') j = load (memory d) j) ∧
    load (crc d') page = Some (crc8 (page_bytes (memory d') page)).
Proof.
  intros Hwf Hp Hrx.
  destruct (duty_write_page_effect h d page data Hwf Hp Hrx)
    as (h' & d' & Hrun & Hrx' & _ & _ & Hupd & Hm').
  exists h', d'. split; [done |]. split; [done |].
  split; [| split; [| apply Hupd]].
  - intros i Hi. rewrite !load_lookup by lia. rewrite Hm'.
    replace (Z.to_nat (page * 8 + i) - Z.to_nat (page * 8))%nat
      with (Z.to_nat i) by lia.
    destruct (Z.ltb_spec i (Z.of_nat (length data))) as [Hlt | Hge];
      cbn [andb].
    + destruct (Z.eqb_spec page 0) as [-> | Hne]; cbn [andb negb].
      * destruct (Z.leb_spec 1 i); destruct (Z.leb_spec i 6); cbn [andb negb];
          [rewrite bool_decide_eq_false_2 by lia; done
          | rewrite bool_decide_eq_true_2 by lia; done ..].
      * rewrite bool_decide_eq_true_2 by lia. done.
    + rewrite bool_decide_eq_false_2 by lia. done.
  - intros j Hj Hout. rewrite !load_lookup by done. rewrite Hm'.
    rewrite bool_decide_eq_false_2 by lia. done.
Qed.

(** ** Protocol errors *)

Lemma duty_unrecognised (h : OneWireHub) (d : DS2438New) (cmd : Z)
    (rest : list Z) :
  rx h = cmd :: rest → recognised cmd = false →
  duty h d =
  Some (raiseSlaveError cmd (mkHub rest (tx_room h) (tx h) (errors h)), d).
Proof.
  intros Hrx Hcmd. unfold duty, recv. rewrite Hrx. cbn [rx tx_room tx errors].
  unfold recognised in Hcmd. repeat apply orb_false_elim in Hcmd as [Hcmd ?].
  by repeat match goal with H : (_ =? _) = false |- _ => rewrite H; clear H end.
Qed.

Lemma duty_page_out_of_range (h : OneWireHub) (d : DS2438New) (cmd page : Z)
    (rest : list Z) :
  rx h = cmd :: page :: rest → takes_page cmd = true → PAGE_COUNT <= page →
  duty h d = Some (mkHub rest (tx_room h) (tx h) (errors h), d).
Proof.
  intros Hrx Hcmd Hpage. unfold duty, recv. rewrite Hrx.
  cbn [rx tx_room tx errors].
  destruct (Z.geb_spec page PAGE_COUNT); [| lia].
  unfold takes_page in Hcmd.
  destruct (Z.eqb_spec cmd 0xBE); [done |].
  destruct (Z.eqb_spec cmd 0x4E); [done |].
  destruct (Z.eqb_spec cmd 0x48); [done |].
  destruct (Z.eqb_spec cmd 0xB8); [done |]. done.
Qed.

(** C3. A duty invocation that receives a command byte calls raiseSlaveError,
    once and with that byte, exactly when the byte is none of 0xBE, 0x4E,
    0x48, 0xB8, 0x44, 0xB4, and then memory, checksums and staged voltages
    are unchanged and nothing is sent; a recognised command signals no
    error; a command taking a page index that receives an index at or above
    the page count ends without error signal, without response and without
    change of the device. *)
Theorem protocol_error_signalling (h : OneWireHub) (d : DS2438New) (cmd : Z)
    (rest : list Z) :
  wf d → Forall is_uint8 (rx h) → rx h = cmd :: rest →
  ∃ h' d', duty h d = Some (h', d') ∧
    (recognised cmd = false →
       errors h' = errors h ++ [cmd] ∧ d' = d ∧ tx h' = tx h) ∧
    (recognised cmd = true → errors h' = errors h) ∧
    (takes_page cmd = true → ∀ page rest',
       rest = page :: rest' → PAGE_COUNT <= page →
       d' = d ∧ errors h' = errors h ∧ tx h' = tx h).
Proof.
  intros Hwf Hbytes Hrx.
  destruct (duty_effect h d Hwf Hbytes) as (h' & d' & Hrun & _ & Herr).
  rewrite Hrx in Herr. exists h', d'. split; [done |].
  split; [| split].
  - intros Hcmd. rewrite (duty_unrecognised h d cmd rest Hrx Hcmd) in Hrun.
    by simplify_eq.
  - intros Hcmd. by rewrite Hcmd in Herr.
  - intros Hcmd page rest' -> Hpage.
    rewrite (duty_page_out_of_range h d cmd page rest' Hrx Hcmd Hpage) in Hrun.
    by simplify_eq.
Qed.

(** ** Round trips of the value encoder *)

Lemma lor_0xFC (b : Z) : 0 <= b < 4 → Z.lor b 0xFC = b + 252.
Proof. clear crc8.
  intros Hb. assert (b = 0 ∨ b = 1 ∨ b = 2 ∨ b = 3) as Hcases by lia.
  by destruct Hcases as [-> | [-> | [-> | ->]]].
Qed.

Lemma land_0xFC_clear (b : Z) : 0 <= b < 4 → Z.land b 0xFC = 0.
Proof. clear crc8.
  intros Hb. assert (b = 0 ∨ b = 1 ∨ b = 2 ∨ b = 3) as Hcases by lia.
  by destruct Hcases as [-> | [-> | [-> | ->]]].
Qed.

Lemma land_0xFC_set (b : Z) : 252 <= b < 256 → Z.land b 0xFC = 0xFC.
Proof. clear crc8.
  intros Hb. assert (b = 252 ∨ b = 253 ∨ b = 254 ∨ b = 255) as Hcases by lia.
  by destruct Hcases as [-> | [-> | [-> | ->]]].
Qed.

(** The two bytes setCurrent stores for a signed 11-bit value. *)
Lemma current_bytes (c : Z) :
  -1024 <= c <= 1023 →
  to_uint8 (Z.land c 0xFF) = c mod 256 ∧
  (if c <? 0
   then to_uint8 (Z.lor (to_uint8 (Z.land (Z.shiftr c 8) 0x03)) 0xFC)
   else to_uint8 (Z.land (Z.shiftr c 8) 0x03)) = (c / 256) mod 256.
Proof. clear crc8.
  intros Hc. unfold to_uint8. rewrite land_0xFF, land_0x03, shiftr_8.
  split; [by rewrite Z.mod_mod |].
  assert (0 <= (c / 256) mod 4 < 4) as Hq by (apply Z.mod_pos_bound; lia).
  rewrite (Z.mod_small ((c / 256) mod 4)) by lia.
  destruct (Z.ltb_spec c 0).
  - rewrite lor_0xFC by done. Z.to_euclidean_division_equations. lia.
  - Z.to_euclidean_division_equations. lia.
Qed.

(** C4. For every c with -1024 <= c <= 1023, setCurrent(c) followed by
    getCurrent() returns exactly c, and after setCurrent(c) the upper six
    bits of the high current byte (page 0, byte 6) are all set when c is
    negative and all clear when c is non-negative. *)
Theorem current_roundtrip (c : Z) (d : DS2438New) :
  wf d → -1024 <= c <= 1023 →
  ∃ d', setCurrent c d = Some d' ∧
    getCurrent d' = Some c ∧
    ∃ hi, load (memory d') 6 = Some hi ∧
      Z.land hi 0xFC = if c <? 0 then 0xFC else 0.
Proof.
  intros Hwf Hc. pose proof Hwf as (Hm & _).
  destruct (setCurrent_effect c d Hwf) as (d' & Hrun & Hmem & _).
  destruct (current_bytes c Hc) as [Hlo Hhi]. rewrite Hlo, Hhi in Hmem.
  exists d'. split; [done |].
  assert (load (memory d') 6 = Some ((c / 256) mod 256)) as H6.
  { rewrite Hmem, load_lookup by lia.
    apply list_lookup_insert_eq. rewrite length_insert. lia. }
  assert (load (memory d') 5 = Some (c mod 256)) as H5.
  { rewrite Hmem, load_lookup by lia.
    rewrite list_lookup_insert_ne by done.
    apply list_lookup_insert_eq. lia. }
  split.
  - unfold getCurrent. rewrite H6, H5. cbn [mbind option_bind]. f_equal.
    rewrite (lor_shiftl _ _ 8) by (try apply Z.mod_pos_bound; lia).
    unfold to_int16. change (2 ^ 8) with 256.
    Z.to_euclidean_division_equations. lia.
  - exists ((c / 256) mod 256). split; [done |].
    destruct (Z.ltb_spec c 0).
    + apply land_0xFC_set. Z.to_euclidean_division_equations. lia.
    + apply land_0xFC_clear. Z.to_euclidean_division_equations. lia.
Qed.

(** C5. For every v with 0 <= v <= 1023 and each of the two channels,
    the channel's voltage setter called with v followed by the channel's
    getter returns exactly v. *)
Theorem voltage_roundtrip (v : Z) (d : DS2438New) :
  wf d → 0 <= v <= 1023 →
  (∃ d', setVADVoltage v d = Some d' ∧ getVADVoltage d' = Some v) ∧
  (∃ d', setVDDVoltage v d = Some d' ∧ getVDDVoltage d' = Some v).
Proof. clear crc8.
  intros Hwf Hv. split.
  - destruct (setVADVoltage_effect v d Hwf) as (d' & ? & _ & _ & _ & _ & Hget).
    exists d'. split; [done |]. rewrite Hget. f_equal. apply Z.mod_small. lia.
  - destruct (setVDDVoltage_effect v d Hwf) as (d' & ? & _ & _ & _ & _ & Hget).
    exists d'. split; [done |]. rewrite Hget. f_equal. apply Z.mod_small. lia.
Qed.

(** C9. For every 16-bit unsigned v, also above 1023, setVADVoltage(v)
    followed by getVADVoltage() returns v mod 1024, and likewise for
    setVDDVoltage and getVDDVoltage: the setter completes on every input and
    keeps the low 10 bits, it neither rejects nor clamps. *)
Theorem voltage_wraps_mod_1024 (v : Z) (d : DS2438New) :
  wf d → is_uint16 v →
  (∃ d', setVADVoltage v d = Some d' ∧
     getVADVoltage d' = Some (v mod 1024)) ∧
  (∃ d', setVDDVoltage v d = Some d' ∧
     getVDDVoltage d' = Some (v mod 1024)).
Proof. clear crc8.
  intros Hwf _. split.
  - destruct (setVADVoltage_effect v d Hwf) as (d' & ? & _ & _ & _ & _ & Hget).
    by exists d'.
  - destruct (setVDDVoltage_effect v d Hwf) as (d' & ? & _ & _ & _ & _ & Hget).
    by exists d'.
Qed.

(** ** Contracts of the register memory store *)

(** C6. For every position, length and source buffer holding the announced
    bytes: at a position at or beyond the memory bound (64) writeMemory
    returns false and changes nothing; otherwise it returns true, writes
    min(length, 64 - position) bytes from the start of the source at the
    position, leaves every other byte as it was, and the checksum of every
    page that overlaps the written range equals crc8 of the page's new
    bytes. *)
Theorem writeMemory_contract (source : list Z) (len position : Z)
    (d : DS2438New) :
  wf d → is_uint8 len → is_uint8 position →
  len <= Z.of_nat (length source) →
  (MEM_SIZE <= position →
     writeMemory source len position d = Some (false, d)) ∧
  (position < MEM_SIZE →
     ∃ d', writeMemory source len position d = Some (true, d') ∧
       let n := Z.min len (MEM_SIZE - position) in
       (∀ j, 0 <= j < MEM_SIZE →
          load (memory d') j =
          if (position <=? j) && (j <? position + n)
          then source !! Z.to_nat (j - position) else load (memory d) j) ∧
       (∀ p, 0 <= p < PAGE_COUNT →
          p * 8 < position + n → position < p * 8 + 8 →
          load (crc d') p = Some (crc8 (page_bytes (memory d') p))) ∧
       vadVoltage d' = vadVoltage d ∧ vddVoltage d' = vddVoltage d).
Proof.
  intros Hwf Hlen Hpos Hsrc. pose proof Hwf as (Hm & _). split.
  - intros Hout. unfold writeMemory.
    destruct (Z.geb_spec position MEM_SIZE); [done | lia].
  - intros Hin.
    destruct (writeMemory_effect source len position d Hwf Hlen
                ltac:(unfold is_uint8 in Hpos; lia) Hsrc)
      as (d' & Hrun & _ & Hmem & Hva & Hvd & Hcrc).
    exists d'. split; [done |]. cbv zeta.
    unfold is_uint8, MEM_SIZE, PAGE_COUNT, PAGE_SIZE in *.
    change (8 * 8) with 64 in *.
    set (n := Z.min len (64 - position)) in *.
    assert (length (take (Z.to_nat n) source) = Z.to_nat n) as Htake
      by (rewrite length_take; lia).
    split; [| split; [| done]].
    + intros j Hj. rewrite !load_lookup by lia. rewrite Hmem.
      destruct (Z.leb_spec position j); destruct (Z.ltb_spec j (position + n));
        cbn [andb].
      * rewrite list_lookup_inserts by lia.
        rewrite lookup_take_lt by lia. f_equal. lia.
      * rewrite list_lookup_inserts_ge by lia. done.
      * rewrite list_lookup_inserts_lt by lia. done.
      * rewrite list_lookup_inserts_lt by lia. done.
    + intros p Hp Hlo Hhi. rewrite Hcrc by lia.
      destruct (Z.leb_spec (position / 8) p);
        [| Z.to_euclidean_division_equations; lia].
      destruct (Z.leb_spec p ((position + len) / 8));
        [| Z.to_euclidean_division_equations; lia].
      destruct (Z.ltb_spec p 8); [done | lia].
Qed.

(** C7. For every position and length, with a destination buffer of the
    announced size: readMemory returns false when position >= 64; when
    position < 64 it copies min(length, 64 - position) bytes of the register
    memory from the position to the start of the destination, leaves the
    rest of the destination alone, and returns true exactly when
    position + length <= 64.  The method is const: it reads the device and
    yields no new device state. *)
Theorem readMemory_contract (destination : list Z) (len position : Z)
    (d : DS2438New) :
  wf d → is_uint8 len → is_uint8 position →
  len <= Z.of_nat (length destination) →
  (MEM_SIZE <= position →
     readMemory destination len position d = Some (false, destination)) ∧
  (position < MEM_SIZE →
     ∃ dest', readMemory destination len position d =
                Some (position + len <=? MEM_SIZE, dest') ∧
       length dest' = length destination ∧
       ∀ i : nat,
         dest' !! i =
         if Z.of_nat i <? Z.min len (MEM_SIZE - position)
         then memory d !! (Z.to_nat position + i)%nat
         else destination !! i).
Proof. clear crc8.
  intros Hwf Hlen Hpos Hdst. pose proof Hwf as (Hm & _). split.
  - intros Hout. unfold readMemory.
    destruct (Z.geb_spec position MEM_SIZE); [done | lia].
  - intros Hin. unfold readMemory.
    destruct (Z.geb_spec position MEM_SIZE); [lia |].
    rewrite clip_length_min by (unfold is_uint8 in *; lia).
    unfold is_uint8, MEM_SIZE, PAGE_COUNT, PAGE_SIZE in *.
    change (8 * 8) with 64 in *.
    set (n := Z.min len (64 - position)) in *.
    rewrite memcpy_inside by lia. cbn [mbind option_bind].
    change (Z.to_nat 0) with 0%nat.
    eexists. split; [| split; [apply length_inserts |]].
    + do 2 f_equal. destruct (Z.eqb_spec n len); destruct (Z.leb_spec (position + len) 64);
        [done | lia | lia | done].
    + intros i.
      assert (length (take (Z.to_nat n) (drop (Z.to_nat position) (memory d)))
              = Z.to_nat n) as Htake
        by (rewrite length_take, length_drop; lia).
      destruct (Z.ltb_spec (Z.of_nat i) n).
      * rewrite list_lookup_inserts by lia.
        rewrite lookup_take_lt by lia. rewrite lookup_drop. f_equal. lia.
      * rewrite list_lookup_inserts_ge by lia. done.
Qed.

(** ** The temperature getter *)

Lemma float_constants_valid :
  valid_binary 24 128 float_23_5 = true ∧
  valid_binary 24 128 float_23_0 = true ∧
  valid_binary 24 128 float_256 = true.
Proof. clear crc8. by vm_compute. Qed.

Lemma scaled_23_5 :
  float_to_int16 (float_mul float_23_5 float_256) = Some 6016 ∧
  float_to_int16 (float_mul float_23_0 float_256) = Some 5888.
Proof. clear crc8. by vm_compute. Qed.

(** C8. setTemperature(23.5) followed by getTemperature() returns exactly
    23: the setter stores the fraction (0x80, one half) in byte 1 of page 0
    and 23 in byte 2, the getter returns byte 2 only, so that it answers 23
    for 23.5 as it does for 23.0 although the stored fractions differ. *)
Theorem temperature_getter_drops_fraction (d : DS2438New) :
  wf d →
  (∃ d', setTemperature_float float_23_5 d = Some d' ∧
     getTemperature d' = Some 23 ∧
     load (memory d') 1 = Some 0x80 ∧ load (memory d') 2 = Some 23) ∧
  (∃ d', setTemperature_float float_23_0 d = Some d' ∧
     getTemperature d' = Some 23 ∧
     load (memory d') 1 = Some 0 ∧ load (memory d') 2 = Some 23).
Proof.
  intros Hwf. pose proof Hwf as (Hm & _).
  destruct scaled_23_5 as [H235 H230]. split.
  - destruct (setTemperature_float_effect float_23_5 6016 d Hwf H235)
      as (d' & Hrun & Hmem & _).
    assert (memory d' = <[2%nat := 23]> (<[1%nat := 0x80]> (memory d)))
      as Hmem' by exact Hmem.
    exists d'. split; [done |].
    assert (load (memory d') 2 = Some 23) as H2.
    { rewrite Hmem', load_lookup by lia.
      apply list_lookup_insert_eq. rewrite length_insert. lia. }
    split; [unfold getTemperature; by rewrite H2 |]. split; [| done].
    rewrite Hmem', load_lookup by lia. rewrite list_lookup_insert_ne by done.
    apply list_lookup_insert_eq. lia.
  - destruct (setTemperature_float_effect float_23_0 5888 d Hwf H230)
      as (d' & Hrun & Hmem & _).
    assert (memory d' = <[2%nat := 23]> (<[1%nat := 0]> (memory d)))
      as Hmem' by exact Hmem.
    exists d'. split; [done |].
    assert (load (memory d') 2 = Some 23) as H2.
    { rewrite Hmem', load_lookup by lia.
      apply list_lookup_insert_eq. rewrite length_insert. lia. }
    split; [unfold getTemperature; by rewrite H2 |]. split; [| done].
    rewrite Hmem', load_lookup by lia. rewrite list_lookup_insert_ne by done.
    apply list_lookup_insert_eq. lia.
Qed.

(** ** The guard of the checksum store *)

(** C10. For every page index p at or above the page count (8), calcCRC(p)
    returns with the whole device unchanged; hence writeMemory, whose
    recomputation loop runs up to the page index (position + length) / 8
    (equal to the page count for position 56 and length 8), completes
    without a checksum store outside the array, keeps the array size and
    leaves the spare slot behind the 8 per-page checksums as it was. *)
Theorem calcCRC_guard (p : Z) (d : DS2438New) :
  PAGE_COUNT <= p →
  calcCRC p d = Some d ∧
  to_uint8 (Z.shiftr (56 + 8) 3) = PAGE_COUNT ∧
  ∀ source len position,
    wf d → is_uint8 len → is_uint8 position →
    len <= Z.of_nat (length source) →
    ∃ ok d', writeMemory source len position d = Some (ok, d') ∧
      length (crc d') = length (crc d) ∧
      load (crc d') PAGE_COUNT = load (crc d) PAGE_COUNT ∧
      ∀ q, PAGE_COUNT <= q → load (crc d') q = load (crc d) q.
Proof.
  intros Hp. split; [by apply calcCRC_outside |]. split; [done |].
  intros source len position Hwf Hlen Hpos Hsrc.
  destruct (Z.lt_ge_cases position MEM_SIZE) as [Hin | Hout].
  - destruct (writeMemory_effect source len position d Hwf Hlen
                ltac:(unfold is_uint8 in Hpos; lia) Hsrc)
      as (d' & Hrun & Hwf' & _ & _ & _ & Hcrc).
    exists true, d'. split; [done |].
    assert (∀ q, PAGE_COUNT <= q → load (crc d') q = load (crc d) q) as Hhigh.
    { intros q Hq. rewrite Hcrc by (unfold PAGE_COUNT in Hq; lia).
      destruct (Z.ltb_spec q PAGE_COUNT); [lia |]. by rewrite andb_false_r. }
    split; [| split; [by apply Hhigh | done]].
    destruct Hwf as (_ & -> & _). by destruct Hwf' as (_ & -> & _).
  - unfold writeMemory. destruct (Z.geb_spec position MEM_SIZE); [| lia].
    by exists false, d.
Qed.

(** ** Further properties of the dispatcher *)

Lemma page_bytes_length (m : list Z) (p : Z) :
  0 <= p → p * 8 + 8 <= Z.of_nat (length m) →
  length (page_bytes m p) = 8%nat.
Proof.
  intros Hp Hlen. unfold page_bytes. rewrite length_take, length_drop. lia.
Qed.

(** Read Scratchpad on a valid page, whatever the master still reads. *)
Lemma read_scratchpad_run (h : OneWireHub) (d : DS2438New) (page : Z)
    (rest : list Z) :
  wf d → 0 <= page < PAGE_COUNT → rx h = 0xBE :: page :: rest →
  ∃ c, load (crc d) page = Some c ∧
    duty h d =
    Some (mkHub rest (tx_room h - 9)
            (tx h ++ take (tx_room h) (page_bytes (memory d) page ++ [c]))
            (errors h), d).
Proof.
  intros Hwf Hp Hrx. pose proof Hwf as (Hm & Hc & _).
  unfold PAGE_COUNT in Hp.
  destruct (load_is_Some (crc d) page ltac:(lia)) as [c Hload].
  exists c. split; [done |].
  unfold duty, recv. rewrite Hrx. cbn [rx tx_room tx errors].
  change (0xBE =? 0xBE) with true. cbv iota. unfold PAGE_COUNT.
  destruct (Z.geb_spec page 8); [lia |].
  rewrite slice_inside by lia. cbn [mbind option_bind].
  fold (page_bytes (memory d) page).
  pose proof (page_bytes_length (memory d) page ltac:(lia) ltac:(lia)) as Hlen.
  unfold send at 1. cbn [rx tx_room tx errors]. rewrite Hlen.
  destruct (Nat.ltb_spec (tx_room h) 8) as [Hshort | Hroom].
  - do 2 f_equal. f_equal; [lia |].
    by rewrite take_app_le by lia.
  - rewrite Hload. cbn [mbind option_bind].
    unfold send. cbn [rx tx_room tx errors length]. do 2 f_equal.
    f_equal; [lia |].
    rewrite take_app_ge by lia. rewrite Hlen.
    rewrite (take_ge (page_bytes _ _)) by lia. by rewrite <- (assoc_L (++)).
Qed.

(** X1. Read Scratchpad (0xBE) on a valid page leaves the device as it is,
    signals no error and sends the 8 bytes of the page followed by the stored
    checksum of the page, cut off after as many bytes as the master reads. *)
Theorem read_scratchpad_response (h : OneWireHub) (d : DS2438New) (page : Z)
    (rest : list Z) :
  wf d → 0 <= page < PAGE_COUNT → rx h = 0xBE :: page :: rest →
  ∃ h' c, duty h d = Some (h', d) ∧ load (crc d) page = Some c ∧
    tx h' = tx h ++ take (tx_room h) (page_bytes (memory d) page ++ [c]) ∧
    rx h' = rest ∧ errors h' = errors h.
Proof.
  intros Hwf Hp Hrx.
  destruct (read_scratchpad_run h d page rest Hwf Hp Hrx) as (c & Hc & Hrun).
  eexists _, c. split; [exact Hrun |]. by repeat split.
Qed.

(** X2. On a device in a reachable state, a master that reads the whole
    response of Read Scratchpad gets the 8 bytes of the page followed by
    crc8 of exactly these bytes: no stale checksum is ever sent. *)
Theorem read_scratchpad_checksum_fresh (h : OneWireHub) (d : DS2438New)
    (page : Z) (rest : list Z) :
  reachable d → 0 <= page < PAGE_COUNT → rx h = 0xBE :: page :: rest →
  (9 <= tx_room h)%nat →
  ∃ h', duty h d = Some (h', d) ∧
    tx h' = tx h ++ page_bytes (memory d) page
                 ++ [crc8 (page_bytes (memory d) page)].
Proof.
  intros Hreach Hp Hrx Hroom.
  destruct (reachable_wf_crc_ok d Hreach) as [Hwf Hok].
  pose proof Hwf as (Hm & _).
  destruct (read_scratchpad_run h d page rest Hwf Hp Hrx) as (c & Hc & Hrun).
  rewrite (Hok page Hp) in Hc. injection Hc as <-.
  eexists. split; [exact Hrun |]. cbn [tx]. f_equal.
  apply take_ge. rewrite length_app, page_bytes_length; simpl;
    unfold PAGE_COUNT in Hp; lia.
Qed.

Ltac device_kept d := eexists _, d; split; [reflexivity | by left].

(** The outcomes of a transaction for the device. *)
Lemma duty_cases (h : OneWireHub) (d : DS2438New) :
  wf d → Forall is_uint8 (rx h) →
  ∃ h' d', duty h d = Some (h', d') ∧
    (d' = d ∨
     (∃ page data, rx h = 0x4E :: page :: data ∧ 0 <= page < PAGE_COUNT ∧
        page_update page d d' ∧
        ∀ j : nat, (0 < j < 7)%nat → memory d' !! j = memory d !! j) ∨
     (∃ rest, rx h = 0x44 :: rest ∧ memory d' = memory d ∧
        page_update 0 d d') ∨
     (∃ rest lo hi, rx h = 0xB4 :: rest ∧
        memory d' = <[4%nat := hi]> (<[3%nat := lo]> (memory d)) ∧
        page_update 0 d d')).
Proof.
  intros Hwf Hbytes. pose proof Hwf as (Hm & Hc & _).
  destruct (rx h) as [| cmd rest] eqn:Hrx.
  { unfold duty, recv. rewrite Hrx. device_kept d. }
  destruct (Z.eqb_spec cmd 0x4E) as [-> | N2].
  { destruct rest as [| page data].
    { unfold duty, recv. rewrite Hrx. device_kept d. }
    assert (0 <= page) as Hp0.
    { apply Forall_cons in Hbytes as [_ [Hp _]%Forall_cons]. apply Hp. }
    destruct (Z.ltb_spec page PAGE_COUNT) as [Hlt | Hge].
    - destruct (duty_write_page_effect h d page data Hwf ltac:(lia) Hrx)
        as (h' & d' & -> & _ & _ & _ & Hupd & Hmem).
      exists h', d'. split; [done |]. right. left. exists page, data.
      split; [done |]. split; [lia |]. split; [done |].
      intros j Hj. rewrite Hmem. rewrite bool_decide_eq_false_2; [done | lia].
    - unfold duty, recv. rewrite Hrx. cbn [rx tx_room tx errors].
      change (0x4E =? 0xBE) with false. change (0x4E =? 0x4E) with true.
      cbv iota. destruct (Z.geb_spec page PAGE_COUNT); [| lia].
      device_kept d. }
  unfold duty, recv. rewrite Hrx. cbn [rx tx_room tx errors].
  destruct (Z.eqb_spec cmd 0xBE) as [-> | N1].
  { destruct rest as [| page rest]; [device_kept d |].
    cbn [rx tx_room tx errors]. unfold PAGE_COUNT.
    destruct (Z.geb_spec page 8) as [Hge | Hlt]; [device_kept d |].
    assert (0 <= page) as Hp0.
    { apply Forall_cons in Hbytes as [_ [Hp _]%Forall_cons]. apply Hp. }
    rewrite slice_inside by lia. cbn [mbind option_bind].
    destruct (send _ _) as [failed h1]. destruct failed; [device_kept d |].
    destruct (load_is_Some (crc d) page ltac:(lia)) as [c ->].
    cbn [mbind option_bind]. destruct (send [c] h1) as [failed h2].
    device_kept d. }
  destruct (Z.eqb_spec cmd 0x4E) as [? | _]; [done |].
  destruct (Z.eqb_spec cmd 0x48) as [-> | N3].
  { destruct rest as [| page rest]; [device_kept d |].
    destruct (page >=? PAGE_COUNT); device_kept d. }
  destruct (Z.eqb_spec cmd 0xB8) as [-> | N4].
  { destruct rest as [| page rest]; [device_kept d |].
    destruct (page >=? PAGE_COUNT); device_kept d. }
  destruct (Z.eqb_spec cmd 0x44) as [-> | N5].
  { destruct (calcCRC_page_update 0 d Hwf) as (d' & -> & Hmem & Hupd); [done |].
    cbn [mbind option_bind]. eexists _, d'. split; [done |].
    right. right. left. by exists rest. }
  destruct (Z.eqb_spec cmd 0xB4) as [-> | N6].
  { destruct (convert_voltage_effect d Hwf)
      as (d' & cfg & lo & hi & Hrun & _ & _ & Hmem & Hupd).
    cbn [mbind option_bind] in Hrun.
    destruct (updateVoltage 0 d) as [d1 |]; [| done].
    cbn [mbind option_bind] in *. rewrite Hrun. cbn [mbind option_bind].
    eexists _, d'. split; [done |]. right. right. right.
    by exists rest, lo, hi. }
  device_kept d.
Qed.

(** X3. A transaction changes the device only when it is a Write Scratchpad
    (0x4E) with a valid page index, a Convert T (0x44) or a Convert V
    (0xB4): Read, Copy and Recall Scratchpad, unknown commands, page indices
    out of range and transactions that end before the page index leave
    memory, checksums and staged voltages exactly as they were. *)
Theorem duty_changes_device_only_by (h : OneWireHub) (d : DS2438New) :
  wf d → Forall is_uint8 (rx h) →
  ∃ h' d', duty h d = Some (h', d') ∧
    (d' ≠ d →
     (∃ page data, rx h = 0x4E :: page :: data ∧ 0 <= page < PAGE_COUNT) ∨
     (∃ rest, rx h = 0x44 :: rest) ∨ (∃ rest, rx h = 0xB4 :: rest)).
Proof.
  intros Hwf Hbytes.
  destruct (duty_cases h d Hwf Hbytes) as (h' & d' & Hrun & Hcases).
  exists h', d'. split; [done |]. intros Hchanged.
  destruct Hcases as [-> | [(page & data & Hrx & Hp & _)
                     | [(rest & Hrx & _) | (rest & lo & hi & Hrx & _)]]].
  - done.
  - left. by exists page, data.
  - right. left. by exists rest.
  - right. right. by exists rest.
Qed.

(** X4. No transaction, whatever the master sends, changes the temperature
    bytes (1 and 2) or the current bytes (5 and 6) of page 0 or the staged
    voltages: getTemperature, getCurrent, getVADVoltage and getVDDVoltage
    return after the transaction what they returned before. *)
Theorem duty_keeps_measurements (h : OneWireHub) (d : DS2438New) :
  wf d → Forall is_uint8 (rx h) →
  ∃ h' d', duty h d = Some (h', d') ∧
    (∀ j, j = 1 ∨ j = 2 ∨ j = 5 ∨ j = 6 →
       load (memory d') j = load (memory d) j) ∧
    getTemperature d' = getTemperature d ∧
    getCurrent d' = getCurrent d ∧
    getVADVoltage d' = getVADVoltage d ∧
    getVDDVoltage d' = getVDDVoltage d.
Proof.
  intros Hwf Hbytes.
  destruct (duty_cases h d Hwf Hbytes) as (h' & d' & Hrun & Hcases).
  exists h', d'. split; [done |].
  assert ((∀ j : nat, (0 < j < 7)%nat → j ≠ 3%nat → j ≠ 4%nat →
             memory d' !! j = memory d !! j) ∧
          vadVoltage d' = vadVoltage d ∧ vddVoltage d' = vddVoltage d)
    as (Hmem & Hva & Hvd).
  { destruct Hcases as [-> | [(page & data & _ & _ & Hupd & Hmem)
                       | [(rest & _ & Hmem & Hupd)
                       | (rest & lo & hi & _ & Hmem & Hupd)]]].
    - done.
    - split; [intros j Hj _ _; by apply Hmem | apply Hupd].
    - split; [by rewrite Hmem | apply Hupd].
    - split; [| apply Hupd]. intros j Hj H3 H4.
      rewrite Hmem. by rewrite !list_lookup_insert_ne by done. }
  assert (∀ j, j = 1 ∨ j = 2 ∨ j = 5 ∨ j = 6 →
            load (memory d') j = load (memory d) j) as Hload.
  { intros j Hj. rewrite !load_lookup by lia. apply Hmem; lia. }
  split; [done |].
  unfold getTemperature, getCurrent, getVADVoltage, getVDDVoltage.
  rewrite Hva, Hvd, (Hload 2), (Hload 5), (Hload 6) by lia. done.
Qed.

(** ** Convert V and the staged voltages *)

Lemma land_AD_testbit (cfg : Z) :
  to_uint8 (Z.land cfg REG0_MASK_AD) = if Z.testbit cfg 3 then 8 else 0.
Proof. clear crc8.
  assert (Z.land cfg REG0_MASK_AD = if Z.testbit cfg 3 then 8 else 0) as ->.
  { apply Z.bits_inj'. intros n Hn. rewrite Z.land_spec.
    change REG0_MASK_AD with (2 ^ 3). rewrite Z.pow2_bits_eqb by lia.
    destruct (Z.eqb_spec 3 n) as [<- | Hne].
    - rewrite andb_true_r. destruct (Z.testbit cfg 3); reflexivity.
    - rewrite andb_false_r. destruct (Z.testbit cfg 3).
      + change 8 with (2 ^ 3). rewrite Z.pow2_bits_eqb by lia.
        symmetry. by apply Z.eqb_neq.
      + by rewrite Z.bits_0. }
  by destruct (Z.testbit cfg 3).
Qed.

Lemma convert_voltage_run (h : OneWireHub) (d : DS2438New) (rest : list Z)
    (cfg : Z) :
  wf d → rx h = 0xB4 :: rest → load (memory d) 0 = Some cfg →
  ∃ d' lo hi,
    duty h d = Some (mkHub rest (tx_room h) (tx h) (errors h), d') ∧
    (let sel := if Z.testbit cfg 3 then vddVoltage d else vadVoltage d in
     load sel 0 = Some lo ∧ load sel 1 = Some hi) ∧
    memory d' = <[4%nat := hi]> (<[3%nat := lo]> (memory d)) ∧
    page_update 0 d d'.
Proof.
  intros Hwf Hrx Hcfg.
  destruct (convert_voltage_effect d Hwf)
    as (d' & cfg' & lo & hi & Hrun & Hcfg' & Hsel & Hmem & Hupd).
  rewrite Hcfg in Hcfg'. injection Hcfg' as <-.
  exists d', lo, hi. split; [| split; [| done]].
  - unfold duty, recv. rewrite Hrx. cbn [rx tx_room tx errors].
    change (0xB4 =? 0xBE) with false. change (0xB4 =? 0x4E) with false.
    change (0xB4 =? 0x48) with false. change (0xB4 =? 0xB8) with false.
    change (0xB4 =? 0x44) with false. change (0xB4 =? 0xB4) with true.
    cbv iota. cbn [mbind option_bind] in Hrun.
    destruct (updateVoltage 0 d) as [d1 |]; [| done].
    cbn [mbind option_bind] in *. by rewrite Hrun.
  - cbv zeta in *. rewrite land_AD_testbit in Hsel.
    by destruct (Z.testbit cfg 3).
Qed.

(** X5. Convert V (0xB4) copies the staged pair of the channel that bit 3
    of the configuration byte selects (VDD when set, VAD when clear) into
    bytes 3 and 4 of page 0, so that the voltage register then decodes to
    what the getter of that channel returns; every other byte of the memory
    and both staged pairs stay as they were, the checksum of page 0 is
    recomputed, nothing is sent and no error is signalled. *)
Theorem convert_voltage_latches (h : OneWireHub) (d : DS2438New)
    (rest : list Z) (cfg : Z) :
  wf d → rx h = 0xB4 :: rest → load (memory d) 0 = Some cfg →
  ∃ h' d' lo hi, duty h d = Some (h', d') ∧
    load (memory d') 3 = Some lo ∧ load (memory d') 4 = Some hi ∧
    Some (to_uint16 (Z.lor (Z.shiftl hi 8) lo)) =
      (if Z.testbit cfg 3 then getVDDVoltage d else getVADVoltage d) ∧
    (∀ j, 0 <= j → j ≠ 3 → j ≠ 4 →
       load (memory d') j = load (memory d) j) ∧
    load (crc d') 0 = Some (crc8 (page_bytes (memory d') 0)) ∧
    vadVoltage d' = vadVoltage d ∧ vddVoltage d' = vddVoltage d ∧
    rx h' = rest ∧ tx h' = tx h ∧ errors h' = errors h.
Proof.
  intros Hwf Hrx Hcfg. pose proof Hwf as (Hm & _).
  destruct (convert_voltage_run h d rest cfg Hwf Hrx Hcfg)
    as (d' & lo & hi & Hrun & [Hlo Hhi] & Hmem & Hupd).
  eexists _, d', lo, hi. split; [exact Hrun |].
  split; [| split; [| split; [| split]]].
  - rewrite Hmem, load_lookup by lia. rewrite list_lookup_insert_ne by done.
    apply list_lookup_insert_eq. lia.
  - rewrite Hmem, load_lookup by lia. apply list_lookup_insert_eq.
    rewrite length_insert. lia.
  - unfold getVDDVoltage, getVADVoltage, get_voltage.
    destruct (Z.testbit cfg 3); by rewrite Hhi, Hlo.
  - intros j Hj H3 H4. rewrite Hmem, !load_lookup by lia.
    by rewrite !list_lookup_insert_ne by lia.
  - destruct Hupd as (_ & _ & _ & Hcrc & Hva & Hvd). by repeat split.
Qed.

(** X6. A voltage handed to setVADVoltage is staged only: the register
    memory and the checksums are unchanged by the setter (and so is the VDD
    channel).  With the channel-select bit clear, a following Convert V makes
    the voltage register of page 0 decode to v mod 1024. *)
Theorem staged_voltage_visible_after_convert (h : OneWireHub) (d : DS2438New)
    (rest : list Z) (cfg v : Z) :
  wf d → rx h = 0xB4 :: rest → load (memory d) 0 = Some cfg →
  Z.testbit cfg 3 = false →
  ∃ d1, setVADVoltage v d = Some d1 ∧
    memory d1 = memory d ∧ crc d1 = crc d ∧
    getVDDVoltage d1 = getVDDVoltage d ∧
    ∃ h' d2 lo hi, duty h d1 = Some (h', d2) ∧
      load (memory d2) 3 = Some lo ∧ load (memory d2) 4 = Some hi ∧
      to_uint16 (Z.lor (Z.shiftl hi 8) lo) = v mod 1024.
Proof.
  intros Hwf Hrx Hcfg Hbit.
  destruct (setVADVoltage_effect v d Hwf)
    as (d1 & Hset & Hwf1 & Hmem1 & Hcrc1 & Hvd1 & Hget).
  exists d1. split; [done |]. split; [done |]. split; [done |].
  split; [unfold getVDDVoltage; by rewrite Hvd1 |].
  pose proof Hwf1 as (Hm & _).
  destruct (convert_voltage_run h d1 rest cfg Hwf1 Hrx)
    as (d2 & lo & hi & Hrun & [Hlo Hhi] & Hmem & _); [by rewrite Hmem1 |].
  rewrite Hbit in Hlo, Hhi.
  eexists _, d2, lo, hi. split; [exact Hrun |].
  split; [| split].
  - rewrite Hmem, load_lookup by lia. rewrite list_lookup_insert_ne by done.
    apply list_lookup_insert_eq. lia.
  - rewrite Hmem, load_lookup by lia. apply list_lookup_insert_eq.
    rewrite length_insert. lia.
  - unfold getVADVoltage, get_voltage in Hget. rewrite Hhi, Hlo in Hget.
    cbn [mbind option_bind] in Hget. by injection Hget.
Qed.

(** ** Reset *)

Lemma clearMemory_run (d : DS2438New) :
  wf d →
  clearMemory d =
  calcCRC_pages (seqZ 0 PAGE_COUNT) (set_memory (<[0%nat := 0x03]> MemDS2438) d).
Proof.
  intros (Hm & _). unfold clearMemory.
  rewrite memcpy_inside
    by (unfold PAGE_COUNT, PAGE_SIZE; simpl length; lia).
  cbn [mbind option_bind].
  assert (list_inserts (Z.to_nat 0)
            (take (Z.to_nat (PAGE_COUNT * PAGE_SIZE))
               (drop (Z.to_nat 0) MemDS2438)) (memory d) = MemDS2438) as ->.
  { change (take _ (drop _ MemDS2438)) with (MemDS2438 ++ []).
    apply list_inserts_0_l. by rewrite Hm. }
  reflexivity.
Qed.

(** X7. clearMemory brings the register memory to one fixed content,
    whatever it held before: the table MemDS2438 with the configuration byte
    0x03 (automatic measurement and accumulator enabled; channel select,
    EEPROM shadow and the three busy flags clear).  It recomputes the 8
    checksums, does not reset the staged voltages, and a second clearMemory
    changes nothing. *)
Theorem clearMemory_resets (d : DS2438New) :
  wf d →
  ∃ d', clearMemory d = Some d' ∧
    memory d' = <[0%nat := 0x03]> MemDS2438 ∧
    (∀ p, 0 <= p < PAGE_COUNT →
       load (crc d') p = Some (crc8 (page_bytes (<[0%nat := 0x03]> MemDS2438) p))) ∧
    vadVoltage d' = vadVoltage d ∧ vddVoltage d' = vddVoltage d ∧
    clearMemory d' = Some d'.
Proof.
  intros Hwf.
  assert (∀ e, wf e →
            ∃ e', clearMemory e = Some e' ∧ wf e' ∧
              memory e' = <[0%nat := 0x03]> MemDS2438 ∧
              vadVoltage e' = vadVoltage e ∧ vddVoltage e' = vddVoltage e ∧
              ∀ p, 0 <= p →
                load (crc e') p =
                if p <? PAGE_COUNT
                then Some (crc8 (page_bytes (<[0%nat := 0x03]> MemDS2438) p))
                else load (crc e) p) as Hclear.
  { intros e He. rewrite clearMemory_run by done.
    assert (wf (set_memory (<[0%nat := 0x03]> MemDS2438) e)) as He1.
    { apply wf_set_memory; [done |]. destruct He as (-> & _). reflexivity. }
    destruct (calcCRC_pages_effect (seqZ 0 PAGE_COUNT) _ He1)
      as (e' & -> & He' & Hm' & Hva' & Hvd' & Hc').
    { apply Forall_forall. intros p Hp%elem_of_seqZ. lia. }
    exists e'. do 5 (split; [done |]). intros p Hp. rewrite Hc' by done.
    cbn [memory crc set_memory].
    destruct (Z.ltb_spec p PAGE_COUNT).
    - rewrite bool_decide_eq_true_2 by (apply elem_of_seqZ; lia). done.
    - rewrite bool_decide_eq_false_2 by (rewrite elem_of_seqZ; lia). done. }
  destruct (Hclear d Hwf) as (d' & Hrun & Hwf' & Hm' & Hva' & Hvd' & Hc').
  exists d'. do 2 (split; [done |]). split.
  { intros p Hp. rewrite Hc' by lia.
    destruct (Z.ltb_spec p PAGE_COUNT); [done | lia]. }
  do 2 (split; [done |]).
  destruct (Hclear d' Hwf') as (d'' & Hrun2 & Hwf'' & Hm'' & Hva'' & Hvd'' & Hc'').
  rewrite Hrun2. f_equal.
  assert (crc d'' = crc d') as Hcrc.
  { apply list_eq. intros i. specialize (Hc'' (Z.of_nat i) ltac:(lia)).
    specialize (Hc' (Z.of_nat i) ltac:(lia)).
    rewrite !load_lookup, !Nat2Z.id in Hc', Hc'' by lia.
    rewrite Hc''. destruct (Z.of_nat i <? PAGE_COUNT); [by rewrite Hc' | done]. }
  destruct d', d''. cbn in *. congruence.
Qed.

(** ** More on the value encoder *)

(** X8. For every int8_t argument the integer setTemperature stores the
    argument clamped to [-55, 125] in byte 2 and zero in the fraction byte,
    and getTemperature returns the clamped argument: inside the range the
    round trip is exact. *)
Theorem temperature_int8_clamps (t : Z) (d : DS2438New) :
  wf d → is_int8 t →
  ∃ d', setTemperature_int8 t d = Some d' ∧
    getTemperature d' = Some (Z.max (-55) (Z.min 125 t)) ∧
    load (memory d') 1 = Some 0.
Proof.
  intros Hwf Ht. pose proof Hwf as (Hm & _). unfold is_int8 in Ht.
  destruct (setTemperature_int8_effect t d Hwf) as (d' & Hrun & Hmem & _).
  cbv zeta in Hmem. exists d'. split; [done |].
  split.
  - unfold getTemperature. rewrite Hmem, load_lookup by lia.
    change (Z.to_nat 2) with 2%nat.
    rewrite list_lookup_insert_eq by (rewrite length_insert; lia).
    cbn [mbind option_bind]. f_equal. unfold to_int8, to_uint8.
    destruct (Z.gtb_spec t 125);
      [change (125 <? -55) with false | destruct (Z.ltb_spec t (-55))];
      cbv iota; Z.to_euclidean_division_equations; lia.
  - rewrite Hmem, load_lookup by lia. rewrite list_lookup_insert_ne by done.
    apply list_lookup_insert_eq. lia.
Qed.

Lemma land_0xF8 (z : Z) : Z.land z 0xF8 = 8 * ((z mod 256) / 8).
Proof. clear crc8.
  assert (Z.land z 0xF8 = Z.ldiff (Z.land z 0xFF) 7) as ->.
  { apply Z.bits_inj'. intros n Hn.
    change 0xF8 with (Z.ldiff 0xFF 7).
    rewrite !Z.ldiff_spec, !Z.land_spec, Z.ldiff_spec. apply andb_assoc. }
  change 7 with (Z.ones 3). rewrite Z.ldiff_ones_r by lia.
  rewrite land_0xFF, Z.shiftr_div_pow2, Z.shiftl_mul_pow2 by lia.
  change (2 ^ 3) with 8. lia.
Qed.

(** X9. For a float argument whose scaled value converts to the int16_t
    value v, let c be v clamped to [-55 * 256, 125 * 256].  The float
    setTemperature stores c with its three lowest bits cleared as the 16-bit
    temperature register (byte 1 low, byte 2 high): steps of 1/32 degree,
    rounded down.  getTemperature then returns c / 256 rounded down, a value
    in [-55, 125]: for a negative temperature with a fraction this is the
    next lower whole degree. *)
Theorem temperature_float_register (temp_degC : spec_float) (v : Z)
    (d : DS2438New) :
  wf d → float_to_int16 (float_mul temp_degC float_256) = Some v →
  let c := Z.max (-55 * 256) (Z.min (125 * 256) v) in
  ∃ d' lo hi, setTemperature_float temp_degC d = Some d' ∧
    load (memory d') 1 = Some lo ∧ load (memory d') 2 = Some hi ∧
    register16 lo hi = c - c mod 8 ∧
    getTemperature d' = Some (c / 256) ∧ -55 <= c / 256 <= 125.
Proof.
  intros Hwf Hconv c. pose proof Hwf as (Hm & _).
  destruct (setTemperature_float_effect temp_degC v d Hwf Hconv)
    as (d' & Hrun & Hmem & _).
  cbv zeta in Hmem.
  assert ((if (if v >? 125 * 256 then 125 * 256 else v) <? -55 * 256
           then -55 * 256 else if v >? 125 * 256 then 125 * 256 else v) = c)
    as Hc.
  { unfold c. destruct (Z.gtb_spec v (125 * 256));
      [change (125 * 256 <? -55 * 256) with false
      | destruct (Z.ltb_spec v (-55 * 256))]; cbv iota; lia. }
  rewrite Hc in Hmem.
  assert (-55 * 256 <= c <= 125 * 256) as Hrange by (unfold c; lia).
  clearbody c. rewrite land_0xF8, shiftr_8 in Hmem. unfold to_uint8 in Hmem.
  assert (load (memory d') 2 = Some ((c / 256) mod 256)) as H2.
  { rewrite Hmem, load_lookup by lia.
    apply list_lookup_insert_eq. rewrite length_insert. lia. }
  assert (load (memory d') 1 = Some ((8 * ((c mod 256) / 8)) mod 256)) as H1.
  { rewrite Hmem, load_lookup by lia. rewrite list_lookup_insert_ne by done.
    apply list_lookup_insert_eq. lia. }
  exists d', ((8 * ((c mod 256) / 8)) mod 256), ((c / 256) mod 256).
  do 3 (split; [done |]). split; [| split].
  - unfold register16, to_int16. Z.to_euclidean_division_equations. lia.
  - unfold getTemperature. rewrite H2. cbn [mbind option_bind]. f_equal.
    unfold to_int8. Z.to_euclidean_division_equations. lia.
  - Z.to_euclidean_division_equations. lia.
Qed.

(** X10. For every int16_t argument, inside the signed 11-bit domain or
    not, setCurrent followed by getCurrent returns the low 10 bits of the
    argument with the sign of the argument: c mod 1024 for c >= 0 and
    c mod 1024 - 1024 for c < 0.  Values outside [-1024, 1023] wrap, they
    are neither rejected nor clamped. *)
Theorem current_wraps_low_10_bits (c : Z) (d : DS2438New) :
  wf d → is_int16 c →
  ∃ d', setCurrent c d = Some d' ∧
    getCurrent d' = Some (if c <? 0 then c mod 1024 - 1024 else c mod 1024).
Proof.
  intros Hwf Hc. pose proof Hwf as (Hm & _). unfold is_int16 in Hc.
  destruct (setCurrent_effect c d Hwf) as (d' & Hrun & Hmem & _).
  exists d'. split; [done |].
  unfold to_uint8 in Hmem. rewrite land_0xFF, land_0x03, shiftr_8 in Hmem.
  assert (0 <= (c / 256) mod 4 < 4) as Hq by (apply Z.mod_pos_bound; lia).
  rewrite (Z.mod_small ((c / 256) mod 4)) in Hmem by lia.
  rewrite lor_0xFC in Hmem by done.
  unfold getCurrent. rewrite Hmem, !load_lookup by lia.
  change (Z.to_nat 6) with 6%nat. change (Z.to_nat 5) with 5%nat.
  rewrite list_lookup_insert_eq by (rewrite length_insert; lia).
  rewrite list_lookup_insert_ne by done.
  rewrite list_lookup_insert_eq by lia.
  cbn [mbind option_bind]. f_equal.
  rewrite (lor_shiftl _ _ 8) by (try apply Z.mod_pos_bound; lia).
  unfold to_int16. change (2 ^ 8) with 256.
  destruct (Z.ltb_spec c 0); Z.to_euclidean_division_equations; lia.
Qed.

(** X11. The setters of page 0 keep to their own bytes: setCurrent leaves
    the temperature bytes and both setTemperature overloads leave the
    current bytes as they were, so getTemperature is unchanged by setCurrent
    and getCurrent is unchanged by setTemperature; none of them changes a
    staged voltage. *)
Theorem setters_keep_other_registers (c t : Z) (temp_degC : spec_float)
    (d : DS2438New) :
  wf d → is_Some (float_to_int16 (float_mul temp_degC float_256)) →
  (∃ d', setCurrent c d = Some d' ∧
     getTemperature d' = getTemperature d ∧
     getVADVoltage d' = getVADVoltage d ∧
     getVDDVoltage d' = getVDDVoltage d) ∧
  (∃ d', setTemperature_int8 t d = Some d' ∧
     getCurrent d' = getCurrent d ∧
     getVADVoltage d' = getVADVoltage d ∧
     getVDDVoltage d' = getVDDVoltage d) ∧
  (∃ d', setTemperature_float temp_degC d = Some d' ∧
     getCurrent d' = getCurrent d ∧
     getVADVoltage d' = getVADVoltage d ∧
     getVDDVoltage d' = getVDDVoltage d).
Proof.
  intros Hwf [v Hconv]. pose proof Hwf as (Hm & _).
  split; [| split].
  - destruct (setCurrent_effect c d Hwf) as (d' & Hrun & Hmem & Hupd).
    destruct Hupd as (_ & _ & _ & _ & Hva & Hvd).
    exists d'. split; [done |].
    unfold getTemperature, getVADVoltage, getVDDVoltage.
    rewrite Hva, Hvd, Hmem, !load_lookup by lia.
    by rewrite !list_lookup_insert_ne by done.
  - destruct (setTemperature_int8_effect t d Hwf) as (d' & Hrun & Hmem & Hupd).
    destruct Hupd as (_ & _ & _ & _ & Hva & Hvd). cbv zeta in Hmem.
    exists d'. split; [done |].
    unfold getCurrent, getVADVoltage, getVDDVoltage.
    rewrite Hva, Hvd, Hmem, !load_lookup by lia.
    by rewrite !list_lookup_insert_ne by done.
  - destruct (setTemperature_float_effect temp_degC v d Hwf Hconv)
      as (d' & Hrun & Hmem & Hupd).
    destruct Hupd as (_ & _ & _ & _ & Hva & Hvd). cbv zeta in Hmem.
    exists d'. split; [done |].
    unfold getCurrent, getVADVoltage, getVDDVoltage.
    rewrite Hva, Hvd, Hmem, !load_lookup by lia.
    by rewrite !list_lookup_insert_ne by done.
Qed.

(** ** Composition of the memory operations *)

Lemma readMemory_run (destination : list Z) (len position : Z)
    (d : DS2438New) :
  wf d → is_uint8 len → 0 <= position < MEM_SIZE →
  len <= Z.of_nat (length destination) →
  readMemory destination len position d =
  Some (position + len <=? MEM_SIZE,
        list_inserts 0
          (take (Z.to_nat (Z.min len (MEM_SIZE - position)))
             (drop (Z.to_nat position) (memory d))) destination).
Proof. clear crc8.
  intros (Hm & _) Hlen Hpos Hdst. unfold readMemory.
  destruct (Z.geb_spec position MEM_SIZE); [lia |].
  rewrite clip_length_min by done.
  unfold is_uint8, MEM_SIZE, PAGE_COUNT, PAGE_SIZE in *.
  change (8 * 8) with 64 in *.
  rewrite memcpy_inside by lia. cbn [mbind option_bind].
  change (Z.to_nat 0) with 0%nat. do 2 f_equal.
  destruct (Z.eqb_spec (Z.min len (64 - position)) len);
    destruct (Z.leb_spec (position + len) 64); [done | lia | lia | done].
Qed.

(** X12. What writeMemory wrote, readMemory reads back: after writing
    length bytes of a source at a position below 64, reading length bytes
    at the same position returns the first min(length, 64 - position) bytes
    of the source at the start of the destination and leaves the rest of the
    destination untouched; it returns true exactly when nothing was cut
    off. *)
Theorem write_then_read_memory (source destination : list Z)
    (len position : Z) (d : DS2438New) :
  wf d → is_uint8 len → 0 <= position < MEM_SIZE →
  len <= Z.of_nat (length source) → len <= Z.of_nat (length destination) →
  ∃ d' dest',
    writeMemory source len position d = Some (true, d') ∧
    readMemory destination len position d' =
      Some (position + len <=? MEM_SIZE, dest') ∧
    let n := Z.to_nat (Z.min len (MEM_SIZE - position)) in
    take n dest' = take n source ∧ drop n dest' = drop n destination.
Proof.
  intros Hwf Hlen Hpos Hsrc Hdst. pose proof Hwf as (Hm & _).
  destruct (writeMemory_effect source len position d Hwf Hlen Hpos Hsrc)
    as (d' & Hrun & Hwf' & Hmem & _).
  exists d'. eexists. split; [exact Hrun |].
  split; [by apply readMemory_run |]. cbv zeta.
  unfold is_uint8, MEM_SIZE, PAGE_COUNT, PAGE_SIZE in *.
  change (8 * 8) with 64 in *.
  set (n := Z.to_nat (Z.min len (64 - position))) in *.
  assert (length (take n source) = n) as Hsrcn
    by (rewrite length_take; lia).
  assert (take n (drop (Z.to_nat position) (memory d')) = take n source)
    as ->.
  { apply list_eq. intros i. destruct (decide (i < n)%nat) as [Hi | Hi].
    - rewrite lookup_take_lt, lookup_drop by done. rewrite Hmem.
      rewrite list_lookup_inserts by lia. f_equal. lia.
    - by rewrite !lookup_take_ge by lia. }
  split.
  - apply list_eq. intros i. destruct (decide (i < n)%nat) as [Hi | Hi].
    + rewrite lookup_take_lt by done.
      rewrite list_lookup_inserts by lia. f_equal. lia.
    + by rewrite !lookup_take_ge by lia.
  - apply list_eq. intros i. rewrite !lookup_drop.
    by rewrite list_lookup_inserts_ge by lia.
Qed.

(** X13. A page written over the bus reads back over the bus: after a Write
    Scratchpad with 8 data bytes on a valid page, a Read Scratchpad of the
    same page whose response the master reads completely sends, for a page
    other than 0, the 8 data bytes and crc8 of them; for page 0 it sends
    data byte 0, the former bytes 1 to 6 of the page and data byte 7,
    followed by crc8 of these 8 bytes. *)
Theorem write_page_then_read_page (h1 h2 : OneWireHub) (d : DS2438New)
    (page : Z) (data rest1 rest2 : list Z) :
  wf d → 0 <= page < PAGE_COUNT → length data = 8%nat →
  rx h1 = 0x4E :: page :: data ++ rest1 →
  rx h2 = 0xBE :: page :: rest2 → (9 <= tx_room h2)%nat →
  ∃ h1' d' h2',
    duty h1 d = Some (h1', d') ∧ rx h1' = rest1 ∧
    duty h2 d' = Some (h2', d') ∧
    let sent := if page =? 0
                then take 1 data ++ take 6 (drop 1 (memory d)) ++ drop 7 data
                else data in
    tx h2' = tx h2 ++ sent ++ [crc8 sent].
Proof.
  intros Hwf Hp Hdata Hrx1 Hrx2 Hroom. pose proof Hwf as (Hm & _).
  destruct (duty_write_page_effect h1 d page (data ++ rest1) Hwf Hp Hrx1)
    as (h1' & d' & Hrun1 & Hrx1' & _ & _ & Hupd & Hmem).
  pose proof Hupd as (Hwf' & _ & _ & Hcrc & _).
  destruct (read_scratchpad_run h2 d' page rest2 Hwf' Hp Hrx2)
    as (c & Hc & Hrun2).
  rewrite Hcrc in Hc. injection Hc as <-.
  exists h1', d'. eexists. split; [exact Hrun1 |].
  split; [by rewrite Hrx1', drop_app_length' |].
  split; [exact Hrun2 |]. cbv zeta. cbn [tx].
  unfold PAGE_COUNT in Hp. pose proof Hwf' as (Hm' & _).
  rewrite take_ge
    by (rewrite length_app, page_bytes_length; simpl; lia).
  assert (page_bytes (memory d') page =
          if page =? 0
          then take 1 data ++ take 6 (drop 1 (memory d)) ++ drop 7 data
          else data) as ->; [| done].
  apply list_eq. intros i.
  destruct (decide (i < 8)%nat) as [Hi | Hi].
  - rewrite page_bytes_lookup by lia. rewrite Hmem.
    replace (Z.to_nat (page * 8) + i - Z.to_nat (page * 8))%nat with i by lia.
    rewrite length_app, Hdata.
    destruct (Z.eqb_spec page 0) as [-> | Hne].
    + change (Z.to_nat (0 * 8)) with 0%nat. rewrite Nat.add_0_l.
      destruct (decide (i = 0 ∨ i = 7)%nat) as [Hedge | Hmid].
      * rewrite bool_decide_eq_true_2 by lia.
        rewrite lookup_app_l by lia.
        destruct Hedge as [-> | ->].
        -- rewrite lookup_app_l by (rewrite length_take; lia).
           by rewrite lookup_take_lt by lia.
        -- rewrite lookup_app_r by (rewrite length_take; lia).
           rewrite lookup_app_r
             by (rewrite !length_take, length_drop; lia).
           rewrite !length_take, length_drop, lookup_drop. f_equal. lia.
      * rewrite bool_decide_eq_false_2 by lia.
        rewrite lookup_app_r by (rewrite length_take; lia).
        rewrite lookup_app_l
          by (rewrite !length_take, length_drop; lia).
        rewrite length_take, lookup_take_lt, lookup_drop by lia.
        f_equal. lia.
    + rewrite bool_decide_eq_true_2 by lia. by rewrite lookup_app_l by lia.
  - unfold page_bytes. rewrite lookup_take_ge by (simpl; lia).
    symmetry. apply lookup_ge_None.
    destruct (page =? 0);
      rewrite ?length_app, ?length_take, ?length_drop; lia.
Qed.

(** ** The sketch: setup *)

Ltac array_step :=
  first [ rewrite store_inside by (cbn [length replicate]; lia)
        | rewrite load_lookup by lia ];
  repeat match goal with
    | |- context [Z.to_nat (Zpos ?p)] =>
        let n := eval cbv in (Z.to_nat (Zpos p)) in
        change (Z.to_nat (Zpos p)) with n
    end;
  change (Z.to_nat 0) with 0%nat;
  cbn [replicate list_insert insert lookup list_lookup mbind option_bind].

(** X14. The 1-Wire address survives a restart.  On an EEPROM of at least 7
    bytes the address part of setup() completes; afterwards byte 0 of the
    EEPROM holds the mark '#', bytes 1 to 6 hold addr[1..6] and the bytes
    from 7 on are untouched.  With the mark already present the EEPROM is
    not written and the address is what bytes 1 to 6 hold; without it
    addr[1..6] are the first six results of the random generator reduced to
    a byte.  Running setup() again on the resulting EEPROM yields the same
    address and EEPROM, whatever the generator would return. *)
Theorem setup_address_persists (random random' : nat → Z) (eeprom : list Z) :
  (7 <= length eeprom)%nat →
  ∃ addr eeprom',
    setup_address random eeprom = Some (addr, eeprom') ∧
    eeprom' !! 0%nat = Some ADDRESS_MARK ∧
    take 6 (drop 1 eeprom') = drop 1 addr ∧
    drop 7 eeprom' = drop 7 eeprom ∧
    (eeprom !! 0%nat = Some ADDRESS_MARK →
       eeprom' = eeprom ∧ addr = 0 :: take 6 (drop 1 eeprom)) ∧
    (eeprom !! 0%nat ≠ Some ADDRESS_MARK →
       addr = 0 :: map (λ n, to_uint8 (random n)) (seq 0 6)) ∧
    setup_address random' eeprom' = Some (addr, eeprom').
Proof. clear crc8.
  intros Hlen.
  destruct eeprom as [| e0 [| e1 [| e2 [| e3 [| e4 [| e5 [| e6 tail]]]]]]];
    try (simpl in Hlen; lia).
  clear Hlen. unfold setup_address.
  change (seqZ 1 6) with [1; 2; 3; 4; 5; 6].
  array_step.
  destruct (Z.eqb_spec e0 ADDRESS_MARK) as [-> | Hfresh].
  - cbn [read_address]. repeat array_step.
    eexists _, _. split; [reflexivity |].
    do 5 (split; [done |]).
    array_step. change (ADDRESS_MARK =? ADDRESS_MARK) with true. cbv iota.
    cbn [read_address]. by repeat array_step.
  - cbn [generate_address]. repeat array_step.
    eexists _, _. split; [reflexivity |].
    split; [done |]. split; [done |]. split; [done |].
    split; [intros [= ?]; done |]. split; [done |].
    array_step. change (ADDRESS_MARK =? ADDRESS_MARK) with true. cbv iota.
    cbn [read_address]. by repeat array_step.
Qed.

(** X15. The device part of setup() completes on any members of the
    declared sizes and leaves a reachable device on which getCurrent,
    getTemperature and getVDDVoltage all return 0, with the register memory
    of clearMemory but for zeroed temperature and current bytes.  The staged
    VAD pair is not initialised by setup(): it is what the raw members
    held. *)
Theorem setup_device_state (raw : DS2438New) :
  wf raw →
  ∃ d, setup_device raw = Some d ∧ reachable d ∧
    getCurrent d = Some 0 ∧ getTemperature d = Some 0 ∧
    getVDDVoltage d = Some 0 ∧
    memory d =
      <[2%nat := 0]> (<[1%nat := 0]> (<[6%nat := 0]> (<[5%nat := 0]>
        (<[0%nat := 0x03]> MemDS2438)))) ∧
    vadVoltage d = vadVoltage raw.
Proof.
  intros Hraw. unfold setup_device, construct.
  assert (∃ d0, clearMemory raw = Some d0 ∧ wf d0 ∧
            memory d0 = <[0%nat := 0x03]> MemDS2438 ∧
            vadVoltage d0 = vadVoltage raw) as (d0 & Hrun0 & Hwf0 & Hm0 & Hva0).
  { rewrite clearMemory_run by done.
    assert (wf (set_memory (<[0%nat := 0x03]> MemDS2438) raw)) as Hwf1.
    { apply wf_set_memory; [done |]. destruct Hraw as (-> & _). reflexivity. }
    destruct (calcCRC_pages_effect (seqZ 0 PAGE_COUNT) _ Hwf1)
      as (e' & -> & He' & Hm' & Hva' & _).
    { apply Forall_forall. intros p Hp%elem_of_seqZ. lia. }
    by exists e'. }
  assert (reachable d0) as Hreach0 by by apply (reach_construct raw).
  rewrite Hrun0. cbn [mbind option_bind].
  destruct (setCurrent_effect 0 d0 Hwf0) as (d1 & Hrun1 & Hm1 & Hupd1).
  assert (reachable d1) as Hreach1.
  { apply (reach_perform (OpSetCurrent 0) d0); [done | | done].
    cbn. unfold is_int16. lia. }
  rewrite Hrun1. cbn [mbind option_bind].
  destruct Hupd1 as (Hwf1 & _ & _ & _ & Hva1 & _).
  destruct (setVDDVoltage_effect 0 d1 Hwf1)
    as (d2 & Hrun2 & Hwf2 & Hm2 & _ & Hva2 & Hget2).
  assert (reachable d2) as Hreach2.
  { apply (reach_perform (OpSetVDDVoltage 0) d1); [done | | done].
    cbn. unfold is_uint16. lia. }
  rewrite Hrun2. cbn [mbind option_bind].
  destruct (setTemperature_int8_effect 0 d2 Hwf2) as (d3 & Hrun3 & Hm3 & Hupd3).
  assert (reachable d3) as Hreach3.
  { apply (reach_perform (OpSetTemperatureInt8 0) d2); [done | | done].
    cbn. unfold is_int8. lia. }
  destruct Hupd3 as (Hwf3 & _ & _ & _ & Hva3 & Hvd3).
  exists d3. split; [done |]. split; [done |].
  assert (memory d3 =
          <[2%nat := 0]> (<[1%nat := 0]> (<[6%nat := 0]> (<[5%nat := 0]>
            (<[0%nat := 0x03]> MemDS2438))))) as Hmem.
  { rewrite Hm3, Hm2, Hm1, Hm0. reflexivity. }
  split; [| split; [| split; [| split; [done | congruence]]]].
  - unfold getCurrent. by rewrite Hmem.
  - unfold getTemperature. by rewrite Hmem.
  - unfold getVDDVoltage in *. by rewrite Hvd3, Hget2.
Qed.

(** ** The sketch: the moving average *)

Lemma int_result_inside (INT_MAX z : Z) :
  - INT_MAX - 1 <= z <= INT_MAX → int_result INT_MAX z = Some z.
Proof. clear crc8.
  intros Hz. unfold int_result.
  destruct (Z.leb_spec (- INT_MAX - 1) z); [| lia].
  destruct (Z.leb_spec z INT_MAX); [done | lia].
Qed.

Lemma int_result_outside (INT_MAX z : Z) :
  INT_MAX < z → int_result INT_MAX z = None.
Proof. clear crc8.
  intros Hz. unfold int_result.
  destruct (Z.leb_spec z INT_MAX); [lia |]. by rewrite andb_false_r.
Qed.

(** One update after the first: no overflow when 48 times the larger of the
    output and the reading, plus 47, fits an [int]. *)
Lemma moving_average_step (INT_MAX r : Z) (s : Sketch) :
  averaging s → 0 <= r →
  MA_READINGS * Z.max (ma_output s) r + 47 <= INT_MAX →
  moving_average INT_MAX r s =
    Some (mkSketch (ma_total s - ma_output s + r)
            ((ma_total s - ma_output s + r) / MA_READINGS) (ma_init s)) ∧
  0 <= ma_total s - ma_output s + r.
Proof. clear crc8.
  intros (Hinit & Htotal & Hout) Hr Hmax. unfold MA_READINGS in *.
  assert (0 <= ma_total s - ma_output s <= INT_MAX) as H1
    by (Z.to_euclidean_division_equations; lia).
  assert (0 <= ma_total s - ma_output s + r <= INT_MAX) as H2
    by (Z.to_euclidean_division_equations; lia).
  split; [| lia]. unfold moving_average.
  destruct (Z.eqb_spec (ma_init s) 0); [done |].
  rewrite int_result_inside by lia. cbn [mbind option_bind].
  rewrite int_result_inside by lia. cbn [mbind option_bind].
  unfold MA_READINGS. by rewrite Z.quot_div_nonneg by lia.
Qed.

Lemma moving_average_first (INT_MAX r : Z) (s : Sketch) :
  ma_init s = 0 → 0 <= r → MA_READINGS * r <= INT_MAX →
  moving_average INT_MAX r s = Some (mkSketch (MA_READINGS * r) r 1) ∧
  averaging (mkSketch (MA_READINGS * r) r 1).
Proof. clear crc8.
  intros Hinit Hr Hfit. unfold moving_average. rewrite Hinit.
  change (0 =? 0) with true. cbv iota zeta. unfold MA_READINGS in *.
  rewrite int_result_inside by lia. cbn [mbind option_bind].
  split; [do 2 f_equal; lia |].
  unfold averaging, MA_READINGS. cbn [ma_init ma_total ma_output].
  split; [done |]. split; [lia |]. Z.to_euclidean_division_equations. lia.
Qed.

(** X16. The first reading becomes the output and 48 times the reading the
    total, provided the product fits an [int]; when it does not, the
    multiplication overflows.  With the 16-bit [int] of the AVR boards
    (INT_MAX = 32767) this happens for a first reading of 683 or more, inside
    the range 0..1023 of the analog input. *)
Theorem moving_average_first_reading (INT_MAX r : Z) (s : Sketch) :
  ma_init s = 0 → 0 <= r → 0 <= INT_MAX →
  (MA_READINGS * r <= INT_MAX →
     moving_average INT_MAX r s = Some (mkSketch (MA_READINGS * r) r 1) ∧
     averaging (mkSketch (MA_READINGS * r) r 1)) ∧
  (INT_MAX < MA_READINGS * r → moving_average INT_MAX r s = None).
Proof. clear crc8.
  intros Hinit Hr Hmax. unfold moving_average. rewrite Hinit.
  change (0 =? 0) with true. cbv iota zeta. unfold MA_READINGS. split.
  - intros Hfit. rewrite int_result_inside by lia. cbn [mbind option_bind].
    split; [do 2 f_equal; lia |].
    unfold averaging, MA_READINGS. cbn [ma_init ma_total ma_output].
    split; [done |]. split; [lia |]. Z.to_euclidean_division_equations. lia.
  - intros Hover. by rewrite int_result_outside by lia.
Qed.

(** X17. After the first reading, an update with a reading r >= 0 for which
    48 * max(output, r) + 47 fits an [int] does not overflow, and the new
    output lies between the old output and the reading (both included): the
    average never overshoots. *)
Theorem moving_average_between (INT_MAX r : Z) (s : Sketch) :
  averaging s → 0 <= r →
  MA_READINGS * Z.max (ma_output s) r + 47 <= INT_MAX →
  ∃ s', moving_average INT_MAX r s = Some s' ∧ averaging s' ∧
    ma_total s' = ma_total s - ma_output s + r ∧
    Z.min (ma_output s) r <= ma_output s' <= Z.max (ma_output s) r.
Proof. clear crc8.
  intros Havg Hr Hmax.
  destruct (moving_average_step INT_MAX r s Havg Hr Hmax) as [Hrun Hpos].
  destruct Havg as (Hinit & Htotal & Hout).
  eexists. split; [exact Hrun |]. cbn [ma_init ma_total ma_output].
  split; [by repeat split |]. split; [done |].
  unfold MA_READINGS in *. Z.to_euclidean_division_equations. lia.
Qed.

(** One pass of [loop()] up to the polling, for an output inside the range
    of the voltage register. *)
Lemma loop_reading_effect (INT_MAX r : Z) (s s' : Sketch) (d : DS2438New) :
  wf d → moving_average INT_MAX r s = Some s' → 0 <= ma_output s' <= 1023 →
  ∃ d', loop_reading INT_MAX r s d = Some (s', d') ∧ wf d' ∧
    getVADVoltage d' = Some (ma_output s') ∧
    memory d' = memory d ∧ crc d' = crc d ∧ vddVoltage d' = vddVoltage d.
Proof. clear crc8.
  intros Hwf Hrun Hout. unfold loop_reading. rewrite Hrun.
  cbn [mbind option_bind].
  destruct (setVADVoltage_effect (to_uint16 (ma_output s')) d Hwf)
    as (d' & -> & Hwf' & Hm & Hc & Hvd & Hget).
  cbn [mbind option_bind]. exists d'. split; [done |]. split; [done |].
  split; [| done]. rewrite Hget. f_equal. unfold to_uint16.
  rewrite (Z.mod_small (ma_output s')) by lia. apply Z.mod_small. lia.
Qed.

Lemma loop_readings_averaging (INT_MAX lo hi : Z) (readings : list Z)
    (s : Sketch) (d : DS2438New) :
  0 <= lo → hi <= 1023 → MA_READINGS * hi + 47 <= INT_MAX →
  Forall (λ r, lo <= r <= hi) readings →
  averaging s → wf d → lo <= ma_output s <= hi →
  getVADVoltage d = Some (ma_output s) →
  ∃ s' d', loop_readings INT_MAX readings s d = Some (s', d') ∧
    averaging s' ∧ lo <= ma_output s' <= hi ∧
    getVADVoltage d' = Some (ma_output s') ∧
    memory d' = memory d ∧ crc d' = crc d ∧ vddVoltage d' = vddVoltage d.
Proof. clear crc8.
  intros Hlo Hhi Hmax Hall. revert s d.
  induction Hall as [| r rest Hr Hrest IH]; intros s d Havg Hwf Hout Hget.
  - exists s, d. do 4 (split; [done |]). by repeat split.
  - cbn [loop_readings].
    destruct (moving_average_step INT_MAX r s Havg ltac:(lia)
                ltac:(unfold MA_READINGS in *; lia)) as [Hrun Hpos].
    set (s1 := mkSketch _ _ _) in Hrun.
    assert (averaging s1) as Havg1.
    { destruct Havg as (Hinit & _). by repeat split. }
    assert (lo <= ma_output s1 <= hi) as Hout1.
    { destruct Havg as (_ & Htotal & Hdiv). cbn [s1 ma_output].
      unfold MA_READINGS in *. Z.to_euclidean_division_equations. lia. }
    destruct (loop_reading_effect INT_MAX r s s1 d Hwf Hrun ltac:(lia))
      as (d1 & -> & Hwf1 & Hget1 & Hm1 & Hc1 & Hvd1).
    cbn [mbind option_bind].
    destruct (IH s1 d1 Havg1 Hwf1 Hout1 Hget1)
      as (s' & d' & -> & Havg' & Hout' & Hget' & Hm' & Hc' & Hvd').
    exists s', d'. split; [done |]. split; [done |]. split; [done |].
    split; [done |]. split; [congruence |]. split; congruence.
Qed.


Lemma moving_average_settles_within (INT_MAX r : Z) (n : nat) (s : Sketch)
    (d : DS2438New) :
  0 <= r <= 1023 → averaging s → wf d → ma_output s <= 1023 →
  MA_READINGS * Z.max (ma_output s) r + 47 <= INT_MAX →
  Z.max (MA_READINGS * r - ma_total s) (ma_total s - MA_READINGS * r - 47)
    <= Z.of_nat n →
  ∃ s' d', loop_readings INT_MAX (replicate n r) s d = Some (s', d') ∧
    ma_output s' = r ∧
    (n ≠ 0%nat → getVADVoltage d' = Some r).
Proof. clear crc8.
  intros Hr. revert s d.
  induction n as [| n IH]; intros s d Havg Hwf Hout Hmax Hdist.
  - exists s, d. split; [done |]. split; [| done].
    destruct Havg as (_ & Htotal & Hdiv). unfold MA_READINGS in *.
    Z.to_euclidean_division_equations. lia.
  - cbn [replicate loop_readings].
    destruct (moving_average_step INT_MAX r s Havg ltac:(lia) Hmax)
      as [Hrun Hpos].
    set (s1 := mkSketch _ _ _) in Hrun.
    assert (averaging s1) as Havg1.
    { destruct Havg as (Hinit & _). by repeat split. }
    destruct Havg as (_ & Htotal & Hdiv).
    assert (0 <= ma_output s) as Hout0
      by (unfold MA_READINGS in *; Z.to_euclidean_division_equations; lia).
    assert (Z.min (ma_output s) r <= ma_output s1 <= Z.max (ma_output s) r)
      as Hbetween.
    { cbn [s1 ma_output]. unfold MA_READINGS in *.
      Z.to_euclidean_division_equations. lia. }
    pose proof (proj2 Havg1) as [Htotal1 _].
    destruct (loop_reading_effect INT_MAX r s s1 d Hwf Hrun ltac:(lia))
      as (d1 & -> & Hwf1 & Hget1 & _).
    cbn [mbind option_bind].
    destruct (IH s1 d1 Havg1 Hwf1 ltac:(lia)
                ltac:(unfold MA_READINGS in *; lia))
      as (s' & d' & Hrun' & Hout' & Hget').
    { cbn [s1 ma_total]. unfold MA_READINGS in *.
      Z.to_euclidean_division_equations. lia. }
    exists s', d'. split; [done |]. split; [done |]. intros _.
    destruct n as [| n]; [| by apply Hget'].
    cbn [replicate loop_readings] in Hrun'. injection Hrun' as <- <-.
    by rewrite Hget1, Hout'.
Qed.

(** X19. The moving average has no steady-state error.  When, after the
    first reading, the sensor keeps reading the same value r (0..1023, and
    48 * max(output, r) + 47 fits an [int]), the output equals r after any
    number of passes of at least 48 * |output - r|, and the device then
    holds r as its VAD voltage. *)
Theorem moving_average_settles (INT_MAX r : Z) (n : nat) (s : Sketch)
    (d : DS2438New) :
  0 <= r <= 1023 → averaging s → wf d → ma_output s <= 1023 →
  MA_READINGS * Z.max (ma_output s) r + 47 <= INT_MAX →
  MA_READINGS * Z.abs (ma_output s - r) <= Z.of_nat n →
  ∃ s' d', loop_readings INT_MAX (replicate n r) s d = Some (s', d') ∧
    ma_output s' = r ∧
    (n ≠ 0%nat → getVADVoltage d' = Some r).
Proof. clear crc8.
  intros Hr Havg Hwf Hout Hmax Hn.
  apply moving_average_settles_within; try done.
  destruct Havg as (_ & Htotal & Hdiv). unfold MA_READINGS in *.
  Z.to_euclidean_division_equations. lia.
Qed.

(** ** Channel selection over the bus *)

(** X20. The master selects the voltage channel over the bus: byte 0 of
    page 0 is writable, so after a Write Scratchpad on page 0 whose first
    data byte is b, a Convert V latches the VDD pair when bit 3 of b is set
    and the VAD pair when it is clear; the voltage register then decodes to
    what the getter of that channel returned before the two transactions. *)
Theorem master_selects_channel (h1 h2 : OneWireHub) (d : DS2438New) (b : Z)
    (data rest : list Z) :
  wf d → rx h1 = 0x4E :: 0 :: b :: data → rx h2 = 0xB4 :: rest →
  ∃ h1' d1 h2' d2 lo hi,
    duty h1 d = Some (h1', d1) ∧ duty h2 d1 = Some (h2', d2) ∧
    load (memory d2) 0 = Some b ∧
    load (memory d2) 3 = Some lo ∧ load (memory d2) 4 = Some hi ∧
    Some (to_uint16 (Z.lor (Z.shiftl hi 8) lo)) =
      (if Z.testbit b 3 then getVDDVoltage d else getVADVoltage d).
Proof.
  intros Hwf Hrx1 Hrx2.
  destruct (duty_write_page_effect h1 d 0 (b :: data) Hwf ltac:(done) Hrx1)
    as (h1' & d1 & Hrun1 & _ & _ & _ & Hupd1 & Hmem1).
  pose proof Hupd1 as (Hwf1 & _ & _ & _ & Hva1 & Hvd1).
  pose proof Hwf1 as (Hm1 & _).
  assert (load (memory d1) 0 = Some b) as Hcfg.
  { rewrite load_lookup by lia. rewrite Hmem1.
    rewrite bool_decide_eq_true_2; [done |]. cbn [length]. lia. }
  destruct (convert_voltage_run h2 d1 rest b Hwf1 Hrx2 Hcfg)
    as (d2 & lo & hi & Hrun2 & [Hlo Hhi] & Hmem2 & _).
  exists h1', d1. eexists _, d2, lo, hi.
  split; [exact Hrun1 |]. split; [exact Hrun2 |].
  split; [| split; [| split]].
  - rewrite Hmem2, load_lookup by lia.
    rewrite !list_lookup_insert_ne by done. by rewrite <- load_lookup by lia.
  - rewrite Hmem2, load_lookup by lia. rewrite list_lookup_insert_ne by done.
    apply list_lookup_insert_eq. lia.
  - rewrite Hmem2, load_lookup by lia. apply list_lookup_insert_eq.
    rewrite length_insert. lia.
  - unfold getVDDVoltage, getVADVoltage, get_voltage.
    rewrite <- Hva1, <- Hvd1. destruct (Z.testbit b 3); by rewrite Hhi, Hlo.
Qed.

End Device.

(** ** The theorems at work on the sample device *)

Lemma sample_device_wf : wf sample_device.
Proof. by repeat split. Qed.

Lemma sample_device_constructed :
  construct crc8_dallas sample_raw = Some sample_device.
Proof. by vm_compute. Qed.

Lemma crc_invariant_witness :
  reachable crc8_dallas sample_device ∧
  (crc_ok crc8_dallas sample_device ∧
   ∀ o, admissible o →
     ∃ d', perform crc8_dallas o sample_device = Some d' ∧
       ∀ p, 0 <= p < PAGE_COUNT →
         load (crc d') p = Some (crc8_dallas (page_bytes (memory d') p))).
Proof.
  assert (reachable crc8_dallas sample_device) as Hreach.
  { apply (reach_construct crc8_dallas sample_raw).
    - unfold wf. simpl. done.
    - vm_compute. reflexivity. }
  split; [exact Hreach |].
  exact (crc_invariant crc8_dallas sample_device Hreach).
Defined.

Lemma write_page_protection_witness :
  wf sample_device ∧ 0 <= 0 < PAGE_COUNT ∧
  rx sample_write_page0 = 0x4E :: 0 :: [1; 2; 3; 4; 5; 6; 7; 8; 9; 10] ∧
  ∃ h' d', duty crc8_dallas sample_write_page0 sample_device = Some (h', d') ∧
    rx h' = [9; 10] ∧
    take 8 (memory d') = [1; 0x20; 0x14; 0xAC; 0x00; 0x40; 0x01; 8] ∧
    load (crc d') 0 = Some (crc8_dallas (page_bytes (memory d') 0)).
Proof.
  assert (0 <= 0 < PAGE_COUNT) as Hp by (unfold PAGE_COUNT; lia).
  split; [unfold wf; simpl; done |]. split; [exact Hp |].
  split; [reflexivity |].
  destruct (write_page_protection crc8_dallas sample_write_page0 sample_device
              0 [1; 2; 3; 4; 5; 6; 7; 8; 9; 10])
    as (h' & d' & Hrun & Hrx & _ & _ & Hcrc);
    [unfold wf; simpl; done | exact Hp | reflexivity |].
  exists h', d'. split; [exact Hrun |]. split; [exact Hrx |].
  split; [| exact Hcrc].
  vm_compute in Hrun. injection Hrun as _ <-. reflexivity.
Defined.

Lemma protocol_error_signalling_witness :
  wf sample_device ∧ Forall is_uint8 (rx sample_unknown_command) ∧
  rx sample_unknown_command = 0x77 :: [1] ∧
  ∃ h' d', duty crc8_dallas sample_unknown_command sample_device
             = Some (h', d') ∧
    errors h' = [0x77] ∧ d' = sample_device ∧ tx h' = [].
Proof.
  assert (Forall is_uint8 (rx sample_unknown_command)) as Hbytes.
  { simpl. repeat constructor; unfold is_uint8; lia. }
  split; [unfold wf; simpl; done |]. split; [exact Hbytes |].
  split; [reflexivity |].
  destruct (protocol_error_signalling crc8_dallas sample_unknown_command
              sample_device 0x77 [1])
    as (h' & d' & Hrun & Hunknown & _);
    [unfold wf; simpl; done | exact Hbytes | reflexivity |].
  exists h', d'. split; [exact Hrun |]. apply Hunknown. reflexivity.
Defined.

Lemma current_roundtrip_witness :
  wf sample_device ∧ -1024 <= -3 <= 1023 ∧
  ∃ d', setCurrent crc8_dallas (-3) sample_device = Some d' ∧
    getCurrent d' = Some (-3) ∧
    ∃ hi, load (memory d') 6 = Some hi ∧ Z.land hi 0xFC = 0xFC.
Proof.
  split; [unfold wf; simpl; done |]. split; [lia |].
  apply (current_roundtrip crc8_dallas (-3) sample_device);
    [unfold wf; simpl; done | lia].
Defined.

Lemma voltage_roundtrip_witness :
  wf sample_device ∧ 0 <= 1023 <= 1023 ∧
  (∃ d', setVADVoltage 1023 sample_device = Some d' ∧
     getVADVoltage d' = Some 1023) ∧
  (∃ d', setVDDVoltage 1023 sample_device = Some d' ∧
     getVDDVoltage d' = Some 1023).
Proof.
  split; [unfold wf; simpl; done |]. split; [lia |].
  apply (voltage_roundtrip 1023 sample_device);
    [unfold wf; simpl; done | lia].
Defined.

Lemma voltage_wraps_mod_1024_witness :
  wf sample_device ∧ is_uint16 1025 ∧
  (∃ d', setVADVoltage 1025 sample_device = Some d' ∧
     getVADVoltage d' = Some 1) ∧
  (∃ d', setVDDVoltage 1025 sample_device = Some d' ∧
     getVDDVoltage d' = Some 1).
Proof.
  split; [unfold wf; simpl; done |]. split; [unfold is_uint16; lia |].
  apply (voltage_wraps_mod_1024 1025 sample_device);
    [unfold wf; simpl; done | unfold is_uint16; lia].
Defined.

Lemma writeMemory_contract_witness :
  wf sample_device ∧ is_uint8 10 ∧ is_uint8 60 ∧
  10 <= Z.of_nat (length [1; 2; 3; 4; 5; 6; 7; 8; 9; 10]) ∧
  ∃ d', writeMemory crc8_dallas [1; 2; 3; 4; 5; 6; 7; 8; 9; 10] 10 60
          sample_device = Some (true, d') ∧
    drop 56 (memory d') = [0; 0; 0; 0; 1; 2; 3; 4] ∧
    load (crc d') 7 = Some (crc8_dallas (page_bytes (memory d') 7)).
Proof.
  assert (is_uint8 10 ∧ is_uint8 60) as [H10 H60]
    by (unfold is_uint8; lia).
  assert (10 <= Z.of_nat (length [1; 2; 3; 4; 5; 6; 7; 8; 9; 10])) as Hsrc
    by (simpl; lia).
  split; [unfold wf; simpl; done |]. do 3 (split; [done |]).
  destruct (writeMemory_contract crc8_dallas [1; 2; 3; 4; 5; 6; 7; 8; 9; 10]
              10 60 sample_device) as [_ Hinside];
    [unfold wf; simpl; done | exact H10 | exact H60 | exact Hsrc |].
  destruct Hinside as (d' & Hrun & _ & Hcrc & _);
    [unfold MEM_SIZE, PAGE_COUNT, PAGE_SIZE; lia |].
  exists d'. split; [exact Hrun |]. split.
  - vm_compute in Hrun. injection Hrun as <-. reflexivity.
  - apply Hcrc; unfold MEM_SIZE, PAGE_COUNT, PAGE_SIZE; lia.
Defined.

Lemma readMemory_contract_witness :
  wf sample_device ∧ is_uint8 10 ∧ is_uint8 60 ∧
  10 <= Z.of_nat (length [1; 2; 3; 4; 5; 6; 7; 8; 9; 10]) ∧
  ∃ dest', readMemory [1; 2; 3; 4; 5; 6; 7; 8; 9; 10] 10 60 sample_device
           = Some (false, dest') ∧
    dest' = [0; 0; 0; 0; 5; 6; 7; 8; 9; 10].
Proof.
  assert (is_uint8 10 ∧ is_uint8 60) as [H10 H60]
    by (unfold is_uint8; lia).
  assert (10 <= Z.of_nat (length [1; 2; 3; 4; 5; 6; 7; 8; 9; 10])) as Hdst
    by (simpl; lia).
  split; [unfold wf; simpl; done |]. do 3 (split; [done |]).
  destruct (readMemory_contract [1; 2; 3; 4; 5; 6; 7; 8; 9; 10] 10 60
              sample_device) as [_ Hinside];
    [unfold wf; simpl; done | exact H10 | exact H60 | exact Hdst |].
  destruct Hinside as (dest' & Hrun & _);
    [unfold MEM_SIZE, PAGE_COUNT, PAGE_SIZE; lia |].
  exists dest'. split; [exact Hrun |].
  vm_compute in Hrun. injection Hrun as <-. reflexivity.
Defined.

Lemma temperature_getter_drops_fraction_witness :
  wf sample_device ∧
  ∃ d', setTemperature_float crc8_dallas float_23_5 sample_device = Some d' ∧
    getTemperature d' = Some 23.
Proof.
  split; [unfold wf; simpl; done |].
  destruct (temperature_getter_drops_fraction crc8_dallas sample_device)
    as [(d' & Hrun & Hget & _) _]; [unfold wf; simpl; done |].
  exists d'. split; [exact Hrun | exact Hget].
Defined.

Lemma calcCRC_guard_witness :
  PAGE_COUNT <= 8 ∧
  calcCRC crc8_dallas 8 sample_device = Some sample_device ∧
  ∃ ok d', writeMemory crc8_dallas [1; 2; 3; 4; 5; 6; 7; 8] 8 56 sample_device
           = Some (ok, d') ∧
    length (crc d') = 9%nat ∧ load (crc d') PAGE_COUNT = Some 0x55.
Proof.
  assert (PAGE_COUNT <= 8) as Hp by (unfold PAGE_COUNT; lia).
  split; [exact Hp |].
  destruct (calcCRC_guard crc8_dallas 8 sample_device Hp)
    as (Hsame & _ & Hwrite).
  split; [exact Hsame |].
  destruct (Hwrite [1; 2; 3; 4; 5; 6; 7; 8] 8 56)
    as (ok & d' & Hrun & Hlen & Hspare & _);
    [unfold wf; simpl; done | unfold is_uint8; lia | unfold is_uint8; lia
    | simpl; lia |].
  exists ok, d'. split; [exact Hrun |]. split; [exact Hlen | exact Hspare].
Defined.

(** ** The further properties at work on sample inputs *)

Lemma sample_device_reachable : reachable crc8_dallas sample_device.
Proof.
  apply (reach_construct crc8_dallas sample_raw).
  - unfold wf. simpl. done.
  - vm_compute. reflexivity.
Defined.

Lemma read_scratchpad_response_witness :
  wf sample_device ∧ 0 <= 0 < PAGE_COUNT ∧
  rx sample_read_page0_short = 0xBE :: 0 :: [] ∧
  ∃ h' c, duty crc8_dallas sample_read_page0_short sample_device
            = Some (h', sample_device) ∧
    load (crc sample_device) 0 = Some c ∧
    tx h' = [0x03; 0x20; 0x14; 0xAC; 0x00].
Proof.
  assert (0 <= 0 < PAGE_COUNT) as Hp by (unfold PAGE_COUNT; lia).
  split; [unfold wf; simpl; done |]. split; [exact Hp |].
  split; [reflexivity |].
  destruct (read_scratchpad_response crc8_dallas sample_read_page0_short
              sample_device 0 [])
    as (h' & c & Hrun & Hc & Htx & _);
    [unfold wf; simpl; done | exact Hp | reflexivity |].
  exists h', c. split; [exact Hrun |]. split; [exact Hc |].
  rewrite Htx. reflexivity.
Defined.

Lemma read_scratchpad_checksum_fresh_witness :
  reachable crc8_dallas sample_device ∧ 0 <= 0 < PAGE_COUNT ∧
  rx sample_read_page0 = 0xBE :: 0 :: [] ∧
  (9 <= tx_room sample_read_page0)%nat ∧
  ∃ h', duty crc8_dallas sample_read_page0 sample_device
          = Some (h', sample_device) ∧
    tx h' = [0x03; 0x20; 0x14; 0xAC; 0x00; 0x40; 0x01; 0x00; 74].
Proof.
  assert (0 <= 0 < PAGE_COUNT) as Hp by (unfold PAGE_COUNT; lia).
  split; [exact sample_device_reachable |]. split; [exact Hp |].
  split; [reflexivity |]. split; [simpl; lia |].
  destruct (read_scratchpad_checksum_fresh crc8_dallas
              sample_read_page0 sample_device 0 [])
    as (h' & Hrun & Htx);
    [exact sample_device_reachable | exact Hp | reflexivity | simpl; lia |].
  exists h'. split; [exact Hrun |]. rewrite Htx. reflexivity.
Defined.

Lemma duty_changes_device_only_by_witness :
  wf sample_device ∧ Forall is_uint8 (rx sample_write_page0) ∧
  ∃ h' d', duty crc8_dallas sample_write_page0 sample_device = Some (h', d') ∧
    (d' ≠ sample_device →
     (∃ page data, rx sample_write_page0 = 0x4E :: page :: data ∧
        0 <= page < PAGE_COUNT) ∨
     (∃ rest, rx sample_write_page0 = 0x44 :: rest) ∨
     (∃ rest, rx sample_write_page0 = 0xB4 :: rest)).
Proof.
  assert (Forall is_uint8 (rx sample_write_page0)) as Hbytes.
  { simpl. repeat constructor; unfold is_uint8; lia. }
  split; [unfold wf; simpl; done |]. split; [exact Hbytes |].
  apply (duty_changes_device_only_by crc8_dallas sample_write_page0
           sample_device); [unfold wf; simpl; done | exact Hbytes].
Defined.

Lemma duty_keeps_measurements_witness :
  wf sample_device ∧ Forall is_uint8 (rx sample_write_page0) ∧
  ∃ h' d', duty crc8_dallas sample_write_page0 sample_device = Some (h', d') ∧
    getTemperature d' = Some 0x14 ∧ getCurrent d' = Some 0x0140.
Proof.
  assert (Forall is_uint8 (rx sample_write_page0)) as Hbytes.
  { simpl. repeat constructor; unfold is_uint8; lia. }
  split; [unfold wf; simpl; done |]. split; [exact Hbytes |].
  destruct (duty_keeps_measurements crc8_dallas sample_write_page0
              sample_device)
    as (h' & d' & Hrun & _ & Htemp & Hcur & _);
    [unfold wf; simpl; done | exact Hbytes |].
  exists h', d'. split; [exact Hrun |].
  split; [rewrite Htemp | rewrite Hcur]; reflexivity.
Defined.

Lemma convert_voltage_latches_witness :
  wf sample_device ∧ rx sample_convert_voltage = 0xB4 :: [] ∧
  load (memory sample_device) 0 = Some 0x03 ∧
  ∃ h' d' lo hi,
    duty crc8_dallas sample_convert_voltage sample_device = Some (h', d') ∧
    load (memory d') 3 = Some lo ∧ load (memory d') 4 = Some hi ∧
    Some (to_uint16 (Z.lor (Z.shiftl hi 8) lo)) = getVADVoltage sample_device.
Proof.
  split; [unfold wf; simpl; done |]. split; [reflexivity |].
  split; [reflexivity |].
  destruct (convert_voltage_latches crc8_dallas sample_convert_voltage
              sample_device [] 0x03)
    as (h' & d' & lo & hi & Hrun & Hlo & Hhi & Hdec & _);
    [unfold wf; simpl; done | reflexivity | reflexivity |].
  exists h', d', lo, hi. split; [exact Hrun |]. split; [exact Hlo |].
  split; [exact Hhi | exact Hdec].
Defined.

Lemma staged_voltage_visible_after_convert_witness :
  wf sample_device ∧ rx sample_convert_voltage = 0xB4 :: [] ∧
  load (memory sample_device) 0 = Some 0x03 ∧ Z.testbit 0x03 3 = false ∧
  ∃ d1, setVADVoltage 517 sample_device = Some d1 ∧
    memory d1 = memory sample_device ∧
    ∃ h' d2 lo hi, duty crc8_dallas sample_convert_voltage d1 = Some (h', d2) ∧
      load (memory d2) 3 = Some lo ∧ load (memory d2) 4 = Some hi ∧
      to_uint16 (Z.lor (Z.shiftl hi 8) lo) = 517.
Proof.
  split; [unfold wf; simpl; done |]. split; [reflexivity |].
  split; [reflexivity |]. split; [reflexivity |].
  destruct (staged_voltage_visible_after_convert crc8_dallas
              sample_convert_voltage sample_device [] 0x03 517)
    as (d1 & Hset & Hmem & _ & _ & h' & d2 & lo & hi & Hrun & Hlo & Hhi & Hdec);
    [unfold wf; simpl; done | reflexivity | reflexivity | reflexivity |].
  exists d1. split; [exact Hset |]. split; [exact Hmem |].
  exists h', d2, lo, hi. split; [exact Hrun |]. split; [exact Hlo |].
  split; [exact Hhi | exact Hdec].
Defined.

Lemma clearMemory_resets_witness :
  wf sample_raw ∧
  ∃ d', clearMemory crc8_dallas sample_raw = Some d' ∧
    load (memory d') 0 = Some 0x03 ∧
    vadVoltage d' = [7; 7] ∧ vddVoltage d' = [9; 9] ∧
    clearMemory crc8_dallas d' = Some d'.
Proof.
  split; [unfold wf; simpl; done |].
  destruct (clearMemory_resets crc8_dallas sample_raw)
    as (d' & Hrun & Hmem & _ & Hva & Hvd & Hagain);
    [unfold wf; simpl; done |].
  exists d'. split; [exact Hrun |]. split; [rewrite Hmem; reflexivity |].
  split; [exact Hva |]. split; [exact Hvd | exact Hagain].
Defined.

Lemma temperature_int8_clamps_witness :
  wf sample_device ∧ is_int8 127 ∧
  ∃ d', setTemperature_int8 crc8_dallas 127 sample_device = Some d' ∧
    getTemperature d' = Some 125 ∧ load (memory d') 1 = Some 0.
Proof.
  split; [unfold wf; simpl; done |]. split; [unfold is_int8; lia |].
  apply (temperature_int8_clamps crc8_dallas 127 sample_device);
    [unfold wf; simpl; done | unfold is_int8; lia].
Defined.

Lemma temperature_float_register_witness :
  wf sample_device ∧
  float_to_int16 (float_mul float_minus_half float_256) = Some (-128) ∧
  ∃ d' lo hi,
    setTemperature_float crc8_dallas float_minus_half sample_device
      = Some d' ∧
    load (memory d') 1 = Some lo ∧ load (memory d') 2 = Some hi ∧
    register16 lo hi = -128 ∧ getTemperature d' = Some (-1).
Proof.
  assert (float_to_int16 (float_mul float_minus_half float_256) = Some (-128))
    as Hconv by (vm_compute; reflexivity).
  split; [unfold wf; simpl; done |]. split; [exact Hconv |].
  destruct (temperature_float_register crc8_dallas float_minus_half (-128)
              sample_device)
    as (d' & lo & hi & Hrun & Hlo & Hhi & Hreg & Hget & _);
    [unfold wf; simpl; done | exact Hconv |].
  exists d', lo, hi. split; [exact Hrun |]. split; [exact Hlo |].
  split; [exact Hhi |]. split; [exact Hreg | exact Hget].
Defined.

Lemma current_wraps_low_10_bits_witness :
  wf sample_device ∧ is_int16 (-2000) ∧
  ∃ d', setCurrent crc8_dallas (-2000) sample_device = Some d' ∧
    getCurrent d' = Some (-976).
Proof.
  split; [unfold wf; simpl; done |]. split; [unfold is_int16; lia |].
  apply (current_wraps_low_10_bits crc8_dallas (-2000) sample_device);
    [unfold wf; simpl; done | unfold is_int16; lia].
Defined.

Lemma setters_keep_other_registers_witness :
  wf sample_device ∧
  is_Some (float_to_int16 (float_mul float_23_5 float_256)) ∧
  (∃ d', setCurrent crc8_dallas 5 sample_device = Some d' ∧
     getTemperature d' = getTemperature sample_device) ∧
  (∃ d', setTemperature_int8 crc8_dallas 7 sample_device = Some d' ∧
     getCurrent d' = getCurrent sample_device) ∧
  (∃ d', setTemperature_float crc8_dallas float_23_5 sample_device = Some d' ∧
     getCurrent d' = getCurrent sample_device).
Proof.
  assert (is_Some (float_to_int16 (float_mul float_23_5 float_256))) as Hconv
    by (exists 6016; vm_compute; reflexivity).
  split; [unfold wf; simpl; done |]. split; [exact Hconv |].
  destruct (setters_keep_other_registers crc8_dallas 5 7 float_23_5
              sample_device)
    as ((d1 & Hrun1 & Hkeep1 & _) & (d2 & Hrun2 & Hkeep2 & _)
        & (d3 & Hrun3 & Hkeep3 & _));
    [unfold wf; simpl; done | exact Hconv |].
  split; [by exists d1 |]. split; [by exists d2 | by exists d3].
Defined.

Lemma write_then_read_memory_witness :
  wf sample_device ∧ is_uint8 10 ∧ 0 <= 60 < MEM_SIZE ∧
  10 <= Z.of_nat (length [1; 2; 3; 4; 5; 6; 7; 8; 9; 10]) ∧
  10 <= Z.of_nat (length (replicate 10 0xEE)) ∧
  ∃ d' dest',
    writeMemory crc8_dallas [1; 2; 3; 4; 5; 6; 7; 8; 9; 10] 10 60
      sample_device = Some (true, d') ∧
    readMemory (replicate 10 0xEE) 10 60 d' = Some (false, dest') ∧
    take 4 dest' = [1; 2; 3; 4] ∧ drop 4 dest' = replicate 6 0xEE.
Proof.
  assert (0 <= 60 < MEM_SIZE) as Hpos
    by (unfold MEM_SIZE, PAGE_COUNT, PAGE_SIZE; lia).
  assert (is_uint8 10) as Hlen by (unfold is_uint8; lia).
  split; [unfold wf; simpl; done |]. split; [exact Hlen |].
  split; [exact Hpos |]. split; [simpl; lia |]. split; [simpl; lia |].
  apply (write_then_read_memory crc8_dallas [1; 2; 3; 4; 5; 6; 7; 8; 9; 10]
           (replicate 10 0xEE) 10 60 sample_device);
    [unfold wf; simpl; done | exact Hlen | exact Hpos | simpl; lia
    | simpl; lia].
Defined.

Lemma write_page_then_read_page_witness :
  wf sample_device ∧ 0 <= 1 < PAGE_COUNT ∧
  length [1; 2; 3; 4; 5; 6; 7; 8] = 8%nat ∧
  rx sample_write_page1 = 0x4E :: 1 :: [1; 2; 3; 4; 5; 6; 7; 8] ++ [9; 10] ∧
  rx sample_read_page1 = 0xBE :: 1 :: [] ∧
  Nat.le 9 (tx_room sample_read_page1) ∧
  ∃ h1' d' h2',
    duty crc8_dallas sample_write_page1 sample_device = Some (h1', d') ∧
    rx h1' = [9; 10] ∧
    duty crc8_dallas sample_read_page1 d' = Some (h2', d') ∧
    tx h2' = [1; 2; 3; 4; 5; 6; 7; 8]
               ++ [crc8_dallas [1; 2; 3; 4; 5; 6; 7; 8]].
Proof.
  assert (0 <= 1 < PAGE_COUNT) as Hp by (unfold PAGE_COUNT; lia).
  split; [unfold wf; simpl; done |]. split; [exact Hp |].
  do 3 (split; [reflexivity |]). split; [simpl; lia |].
  apply (write_page_then_read_page crc8_dallas sample_write_page1
           sample_read_page1 sample_device 1 [1; 2; 3; 4; 5; 6; 7; 8]
           [9; 10] []);
    [unfold wf; simpl; done | exact Hp | reflexivity | reflexivity
    | reflexivity | simpl; lia].
Defined.

Lemma setup_address_persists_witness :
  Nat.le 7 (length sample_eeprom) ∧
  ∃ addr eeprom',
    setup_address sample_random sample_eeprom = Some (addr, eeprom') ∧
    addr = [0; 44; 45; 46; 47; 48; 49] ∧
    eeprom' = [35; 44; 45; 46; 47; 48; 49; 0xFF] ∧
    setup_address (λ _, 0) eeprom' = Some (addr, eeprom').
Proof.
  split; [simpl; lia |].
  destruct (setup_address_persists sample_random (λ _, 0) sample_eeprom)
    as (addr & eeprom' & Hrun & _ & _ & _ & _ & _ & Hagain);
    [simpl; lia |].
  exists addr, eeprom'. split; [exact Hrun |].
  vm_compute in Hrun. injection Hrun as <- <-.
  split; [reflexivity |]. split; [reflexivity | exact Hagain].
Defined.

Lemma setup_device_state_witness :
  wf sample_raw ∧
  ∃ d, setup_device crc8_dallas sample_raw = Some d ∧
    reachable crc8_dallas d ∧
    getCurrent d = Some 0 ∧ getTemperature d = Some 0 ∧
    getVDDVoltage d = Some 0 ∧ vadVoltage d = [7; 7].
Proof.
  split; [unfold wf; simpl; done |].
  destruct (setup_device_state crc8_dallas sample_raw)
    as (d & Hrun & Hreach & Hcur & Htemp & Hvdd & _ & Hvad);
    [unfold wf; simpl; done |].
  exists d. split; [exact Hrun |]. split; [exact Hreach |].
  split; [exact Hcur |]. split; [exact Htemp |].
  split; [exact Hvdd | exact Hvad].
Defined.

Lemma moving_average_first_reading_witness :
  ma_init sketch_start = 0 ∧ 0 <= 683 ∧ 0 <= 32767 ∧
  (MA_READINGS * 682 <= 32767 ∧
   moving_average 32767 682 sketch_start = Some (mkSketch 32736 682 1)) ∧
  (32767 < MA_READINGS * 683 ∧
   moving_average 32767 683 sketch_start = None).
Proof.
  split; [reflexivity |]. split; [lia |]. split; [lia |].
  assert (MA_READINGS * 682 <= 32767) as Hfit by (unfold MA_READINGS; lia).
  assert (32767 < MA_READINGS * 683) as Hover by (unfold MA_READINGS; lia).
  split.
  - split; [exact Hfit |].
    destruct (moving_average_first_reading 32767 682 sketch_start)
      as [Hin _]; [reflexivity | lia | lia |].
    destruct (Hin Hfit) as [Hrun _]. exact Hrun.
  - split; [exact Hover |].
    destruct (moving_average_first_reading 32767 683 sketch_start)
      as [_ Hout]; [reflexivity | lia | lia |].
    exact (Hout Hover).
Defined.

Lemma sample_sketch_averaging : averaging sample_sketch.
Proof. unfold averaging. simpl. split; [lia |]. split; [lia | reflexivity]. Defined.

Lemma moving_average_between_witness :
  averaging sample_sketch ∧ 0 <= 200 ∧
  MA_READINGS * Z.max (ma_output sample_sketch) 200 + 47 <= 32767 ∧
  ∃ s', moving_average 32767 200 sample_sketch = Some s' ∧
    ma_total s' = 4900 ∧ 100 <= ma_output s' <= 200.
Proof.
  assert (MA_READINGS * Z.max (ma_output sample_sketch) 200 + 47 <= 32767)
    as Hmax by (unfold MA_READINGS; simpl; lia).
  split; [exact sample_sketch_averaging |]. split; [lia |].
  split; [exact Hmax |].
  destruct (moving_average_between 32767 200 sample_sketch
              sample_sketch_averaging ltac:(lia) Hmax)
    as (s' & Hrun & _ & Htotal & Hbetween).
  exists s'. split; [exact Hrun |]. split; [exact Htotal | exact Hbetween].
Defined.


Lemma moving_average_settles_witness :
  0 <= 101 <= 1023 ∧ averaging sample_sketch ∧ wf sample_device ∧
  ma_output sample_sketch <= 1023 ∧
  MA_READINGS * Z.max (ma_output sample_sketch) 101 + 47 <= 32767 ∧
  MA_READINGS * Z.abs (ma_output sample_sketch - 101) <= Z.of_nat 48 ∧
  ∃ s' d', loop_readings 32767 (replicate 48 101) sample_sketch sample_device
             = Some (s', d') ∧
    ma_output s' = 101 ∧ getVADVoltage d' = Some 101.
Proof.
  assert (MA_READINGS * Z.max (ma_output sample_sketch) 101 + 47 <= 32767)
    as Hmax by (unfold MA_READINGS; simpl; lia).
  assert (MA_READINGS * Z.abs (ma_output sample_sketch - 101) <= Z.of_nat 48)
    as Hn by (unfold MA_READINGS; simpl; lia).
  split; [lia |]. split; [exact sample_sketch_averaging |].
  split; [unfold wf; simpl; done |]. split; [simpl; lia |].
  split; [exact Hmax |]. split; [exact Hn |].
  destruct (moving_average_settles 32767 101 48 sample_sketch sample_device)
    as (s' & d' & Hrun & Hout & Hget);
    [lia | exact sample_sketch_averaging | unfold wf; simpl; done
    | simpl; lia | exact Hmax | exact Hn |].
  exists s', d'. split; [exact Hrun |]. split; [exact Hout |].
  apply Hget. lia.
Defined.

Lemma master_selects_channel_witness :
  wf sample_device ∧ rx sample_select_vdd = 0x4E :: 0 :: 0x0B :: [] ∧
  rx sample_convert_voltage = 0xB4 :: [] ∧
  ∃ h1' d1 h2' d2 lo hi,
    duty crc8_dallas sample_select_vdd sample_device = Some (h1', d1) ∧
    duty crc8_dallas sample_convert_voltage d1 = Some (h2', d2) ∧
    load (memory d2) 3 = Some lo ∧ load (memory d2) 4 = Some hi ∧
    Some (to_uint16 (Z.lor (Z.shiftl hi 8) lo)) = getVDDVoltage sample_device.
Proof.
  split; [unfold wf; simpl; done |]. do 2 (split; [reflexivity |]).
  destruct (master_selects_channel crc8_dallas sample_select_vdd
              sample_convert_voltage sample_device 0x0B [] [])
    as (h1' & d1 & h2' & d2 & lo & hi & Hrun1 & Hrun2 & _ & Hlo & Hhi & Hdec);
    [unfold wf; simpl; done | reflexivity | reflexivity |].
  exists h1', d1, h2', d2, lo, hi. split; [exact Hrun1 |].
  split; [exact Hrun2 |]. split; [exact Hlo |]. split; [exact Hhi |].
  exact Hdec.
Defined.
